(** * Herb-provenance API: stage recording and dual-source verification

    A shallow embedding of the route handlers of the AI and batch routers
    (both in [backend/routes/aiRoutes.js], the batch router from line 78 on;
    line numbers below are those of that file) and of the ledger client
    ([onchain/herbProvenance.js], the third source file), with the JavaScript
    and Node.js primitives they rest on: [JSON.stringify], [parseInt],
    property lookup through [Object.prototype], and the SHA-256 digest of
    Node's [crypto] module. *)

From Stdlib Require Import ZArith List String Ascii Bool Lia DecimalString.
From Stdlib Require DecimalPos.
Import ListNotations.
Set Warnings "-register-all".
Local Open Scope string_scope.
Local Open Scope Z_scope.

(** ** Text helpers *)

(** The double-quote character, U+0022. *)
Definition dquote : ascii := "034"%char.

Definition str1 (c : ascii) : string := String c EmptyString.

(** [Array.prototype.join]. *)
Fixpoint join (sep : string) (l : list string) : string :=
  match l with
  | [] => ""
  | [x] => x
  | x :: r => x ++ sep ++ join sep r
  end.

(** Decimal rendering of an integer, as [Number.prototype.toString] and
    [BigInt.prototype.toString] give it: a minus sign when negative, no
    leading zero. *)
Definition Z_to_string (z : Z) : string := NilZero.string_of_int (Z.to_int z).

(** The bytes of a string, as [hash.update(string)] feeds them (the model
    holds strings in their UTF-8 encoding). *)
Definition bytes_of_string (s : string) : list Z :=
  map (fun c => Z.of_nat (nat_of_ascii c)) (list_ascii_of_string s).

Definition hex_digit (d : Z) : ascii :=
  if d <? 10 then ascii_of_nat (Z.to_nat (48 + d))
  else ascii_of_nat (Z.to_nat (87 + d)).

Definition hex_value (c : ascii) : option Z :=
  let n := Z.of_nat (nat_of_ascii c) in
  if (48 <=? n) && (n <=? 57) then Some (n - 48)
  else if (97 <=? n) && (n <=? 102) then Some (n - 87)
  else if (65 <=? n) && (n <=? 70) then Some (n - 55)
  else None.

(** ** SHA-256 (FIPS 180-4), the primitive behind [crypto.createHash('sha256')] *)

Module SHA256.

Definition w32 (x : Z) : Z := x mod 2 ^ 32.
Definition add32 (x y : Z) : Z := w32 (x + y).
Definition rotr (n x : Z) : Z := Z.lor (Z.shiftr x n) (w32 (Z.shiftl x (32 - n))).
Definition bnot32 (x : Z) : Z := Z.lxor x (2 ^ 32 - 1).

Definition Ch (x y z : Z) : Z := Z.lxor (Z.land x y) (Z.land (bnot32 x) z).
Definition Maj (x y z : Z) : Z :=
  Z.lxor (Z.lxor (Z.land x y) (Z.land x z)) (Z.land y z).
Definition bsig0 (x : Z) : Z := Z.lxor (Z.lxor (rotr 2 x) (rotr 13 x)) (rotr 22 x).
Definition bsig1 (x : Z) : Z := Z.lxor (Z.lxor (rotr 6 x) (rotr 11 x)) (rotr 25 x).
Definition ssig0 (x : Z) : Z := Z.lxor (Z.lxor (rotr 7 x) (rotr 18 x)) (Z.shiftr x 3).
Definition ssig1 (x : Z) : Z := Z.lxor (Z.lxor (rotr 17 x) (rotr 19 x)) (Z.shiftr x 10).

(** Big-endian number held by a run of hexadecimal digits. *)
Fixpoint hex_number (acc : Z) (s : string) : Z :=
  match s with
  | EmptyString => acc
  | String c r =>
      hex_number (16 * acc + match hex_value c with Some d => d | None => 0 end) r
  end.

(** Cuts a string of hexadecimal digits into 32-bit words, eight digits each. *)
Fixpoint hex_words (fuel : nat) (s : string) : list Z :=
  match fuel with
  | O => []
  | S fuel' =>
      match s with
      | EmptyString => []
      | _ => hex_number 0 (substring 0 8 s) :: hex_words fuel' (substring 8 (length s - 8) s)
      end
  end.

(** The sixty-four round constants (section 4.2.2), in order. *)
Definition K : list Z := Eval vm_compute in hex_words 64
  ("428a2f9871374491b5c0fbcfe9b5dba53956c25b59f111f1923f82a4ab1c5ed5" ++
   "d807aa9812835b01243185be550c7dc372be5d7480deb1fe9bdc06a7c19bf174" ++
   "e49b69c1efbe47860fc19dc6240ca1cc2de92c6f4a7484aa5cb0a9dc76f988da" ++
   "983e5152a831c66db00327c8bf597fc7c6e00bf3d5a7914706ca635114292967" ++
   "27b70a852e1b21384d2c6dfc53380d13650a7354766a0abb81c2c92e92722c85" ++
   "a2bfe8a1a81a664bc24b8b70c76c51a3d192e819d6990624f40e3585106aa070" ++
   "19a4c1161e376c082748774c34b0bcb5391c0cb34ed8aa4a5b9cca4f682e6ff3" ++
   "748f82ee78a5636f84c878148cc7020890befffaa4506cebbef9a3f7c67178f2").

(** The initial hash value (section 5.3.3). *)
Definition H_init : list Z := Eval vm_compute in hex_words 8
  "6a09e667bb67ae853c6ef372a54ff53a510e527f9b05688c1f83d9ab5be0cd19".

(** Big-endian bytes of [x], [n] of them. *)
Fixpoint be_bytes (n : nat) (x : Z) : list Z :=
  match n with
  | O => []
  | S n' => (Z.shiftr x (8 * Z.of_nat n')) mod 256 :: be_bytes n' x
  end.

(** Padding (section 5.1.1): a 1 bit, zero bits up to 448 mod 512, then the
    message length in bits on 64 bits. *)
Definition pad (msg : list Z) : list Z :=
  let len := Z.of_nat (List.length msg) in
  (msg ++ [128] ++ repeat 0 (Z.to_nat ((55 - len) mod 64)) ++ be_bytes 8 (8 * len))%list.

Fixpoint be_words (fuel : nat) (bytes : list Z) : list Z :=
  match fuel, bytes with
  | S fuel', b0 :: b1 :: b2 :: b3 :: r =>
      (((b0 * 256 + b1) * 256 + b2) * 256 + b3) :: be_words fuel' r
  | _, _ => []
  end.

Fixpoint blocks (fuel : nat) (bytes : list Z) : list (list Z) :=
  match fuel with
  | O => []
  | S fuel' =>
      match bytes with
      | [] => []
      | _ => be_words 16 (firstn 64 bytes) :: blocks fuel' (skipn 64 bytes)
      end
  end.

(** Message schedule (section 6.2.2, step 1); [rev_w] holds W(t-1), W(t-2), ... *)
Fixpoint schedule (n : nat) (rev_w : list Z) : list Z :=
  match n with
  | O => rev rev_w
  | S n' =>
      let wt := add32 (add32 (add32 (ssig1 (nth 1 rev_w 0)) (nth 6 rev_w 0))
                             (ssig0 (nth 14 rev_w 0))) (nth 15 rev_w 0) in
      schedule n' (wt :: rev_w)
  end.

Record regs : Type := Regs { ra : Z; rb : Z; rc : Z; rd : Z; re : Z; rf : Z; rg : Z; rh : Z }.

Definition regs_of (l : list Z) : regs :=
  Regs (nth 0 l 0) (nth 1 l 0) (nth 2 l 0) (nth 3 l 0)
       (nth 4 l 0) (nth 5 l 0) (nth 6 l 0) (nth 7 l 0).

Definition list_of (r : regs) : list Z :=
  [ra r; rb r; rc r; rd r; re r; rf r; rg r; rh r].

(** One round (section 6.2.2, step 3). *)
Definition round (r : regs) (kw : Z * Z) : regs :=
  let t1 := add32 (add32 (add32 (add32 (rh r) (bsig1 (re r))) (Ch (re r) (rf r) (rg r)))
                         (fst kw)) (snd kw) in
  let t2 := add32 (bsig0 (ra r)) (Maj (ra r) (rb r) (rc r)) in
  Regs (add32 t1 t2) (ra r) (rb r) (rc r) (add32 (rd r) t1) (re r) (rf r) (rg r).

Definition compress (h : list Z) (block : list Z) : list Z :=
  let w := schedule 48 (rev block) in
  let r := fold_left round (combine K w) (regs_of h) in
  map (fun p => add32 (fst p) (snd p)) (combine h (list_of r)).

Definition digest (msg : list Z) : list Z :=
  let p := pad msg in
  flat_map (be_bytes 4) (fold_left compress (blocks (List.length p) p) H_init).

Definition hex_of_bytes (bs : list Z) : string :=
  string_of_list_ascii
    (flat_map (fun b => [hex_digit (b / 16); hex_digit (b mod 16)]) bs).

End SHA256.

(** [crypto.createHash('sha256').update(s).digest('hex')] for a string [s]. *)
Definition sha256_hex (s : string) : string :=
  SHA256.hex_of_bytes (SHA256.digest (bytes_of_string s)).

(** ** JavaScript values *)

(** JSON documents: what [express.json()] hands to a handler as [req.body],
    what the store returns as rows, and what [JSON.parse] produces. Numbers
    are the integer-valued ones below 2^53 in magnitude, where the decimal
    rendering of [Number.prototype.toString] is exact. An object lists its
    own enumerable properties in enumeration order. *)
Inductive json : Type :=
| JNull
| JBool (b : bool)
| JNum (n : Z)
| JStr (s : string)
| JArr (xs : list json)
| JObj (ps : list (string * json)).

(** Run-time values a handler variable can hold: a JSON document, or one of
    the values JSON has no notation for. *)
Inductive value : Type :=
| VUndefined
| VBigInt (n : Z)
| VFun (name : string)
| VJson (j : json).

(** Exceptions, with their [message] property. *)
Inductive exn : Type :=
| TypeError (message : string)
| Error (message : string).

Definition exn_message (e : exn) : string :=
  match e with
  | TypeError m => m
  | Error m => m
  end.

Inductive outcome (A : Type) : Type :=
| Return (a : A)
| Throw (e : exn).
Arguments Return {A} a.
Arguments Throw {A} e.

(** [!v] : the falsy values are [undefined], [null], [false], [0], [0n]
    and the empty string. *)
Definition falsy (v : value) : bool :=
  match v with
  | VUndefined => true
  | VBigInt n => n =? 0
  | VFun _ => false
  | VJson JNull => true
  | VJson (JBool b) => negb b
  | VJson (JNum n) => n =? 0
  | VJson (JStr s) => String.eqb s ""
  | VJson _ => false
  end.

(** [a || b]. *)
Definition js_or (a b : value) : value := if falsy a then b else a.

(** [v == undefined] : loose equality holds for [undefined] and [null] only. *)
Definition loose_eq_undefined (v : value) : bool :=
  match v with
  | VUndefined | VJson JNull => true
  | _ => false
  end.

(** [a === b]: same type and same value for the primitive values; objects,
    arrays and functions are compared by identity, and the ones compared here
    come from different objects. *)
Definition strict_eq (a b : value) : bool :=
  match a, b with
  | VUndefined, VUndefined => true
  | VBigInt x, VBigInt y => x =? y
  | VJson JNull, VJson JNull => true
  | VJson (JBool x), VJson (JBool y) => Bool.eqb x y
  | VJson (JNum x), VJson (JNum y) => x =? y
  | VJson (JStr x), VJson (JStr y) => String.eqb x y
  | _, _ => false
  end.

(** [a === b] on the results of [parseInt], [None] standing for [NaN],
    which equals nothing. *)
Definition strict_eq_number (a b : option Z) : bool :=
  match a, b with
  | Some x, Some y => x =? y
  | _, _ => false
  end.

(** [typeof v === 'string']. *)
Definition is_string (v : value) : bool :=
  match v with
  | VJson (JStr _) => true
  | _ => false
  end.

(** [ToString] of the language specification. *)
Fixpoint json_ToString (j : json) : string :=
  match j with
  | JNull => "null"
  | JBool true => "true"
  | JBool false => "false"
  | JNum n => Z_to_string n
  | JStr s => s
  | JArr xs =>
      join "," (map (fun x => match x with JNull => "" | _ => json_ToString x end) xs)
  | JObj _ => "[object Object]"
  end.

Definition ToString (v : value) : string :=
  match v with
  | VUndefined => "undefined"
  | VBigInt n => Z_to_string n
  | VFun name => "function " ++ name ++ "() { [native code] }"
  | VJson j => json_ToString j
  end.

(** [QuoteJSONString]: the two-character escapes, [\u00xx] for the other
    control characters, every other character as it is. *)
Definition json_escape (c : ascii) : string :=
  let n := Z.of_nat (nat_of_ascii c) in
  if n =? 8 then "\b"
  else if n =? 9 then "\t"
  else if n =? 10 then "\n"
  else if n =? 12 then "\f"
  else if n =? 13 then "\r"
  else if n =? 34 then String "\" (str1 dquote)
  else if n =? 92 then "\\"
  else if n <? 32 then "\u00" ++ String (hex_digit (n / 16)) (str1 (hex_digit (n mod 16)))
  else str1 c.

Definition QuoteJSONString (s : string) : string :=
  str1 dquote ++ concat "" (map json_escape (list_ascii_of_string s)) ++ str1 dquote.

(** [SerializeJSONProperty] on a JSON document, without indentation. *)
Fixpoint JSON_render (j : json) : string :=
  match j with
  | JNull => "null"
  | JBool true => "true"
  | JBool false => "false"
  | JNum n => Z_to_string n
  | JStr s => QuoteJSONString s
  | JArr xs => "[" ++ join "," (map JSON_render xs) ++ "]"
  | JObj ps =>
      "{" ++ join "," (map (fun p => match p with
                                     | (k, x) => QuoteJSONString k ++ ":" ++ JSON_render x
                                     end) ps) ++ "}"
  end.

(** [JSON.stringify(v)]: [undefined] for [undefined] and for a function, a
    [TypeError] for a BigInt, the serialization otherwise. *)
Definition JSON_stringify (v : value) : outcome (option string) :=
  match v with
  | VUndefined => Return None
  | VFun _ => Return None
  | VBigInt _ => Throw (TypeError "Do not know how to serialize a BigInt")
  | VJson j => Return (Some (JSON_render j))
  end.

(** [JSON.parse(JSON.stringify(v, (_, x) => typeof x === 'bigint' ? x.toString() : x))]
    by its result: a BigInt becomes its decimal string, a JSON document comes
    back as it is, and [undefined] or a function has no serialization, so the
    property that held it is absent from the copy ([None]). *)
Definition json_copy_bigint_safe (v : value) : option json :=
  match v with
  | VUndefined => None
  | VFun _ => None
  | VBigInt n => Some (JStr (Z_to_string n))
  | VJson j => Some j
  end.

(** A property read on a copy: an absent property reads [undefined]. *)
Definition read_property (p : option json) : value :=
  match p with
  | Some j => VJson j
  | None => VUndefined
  end.

(** *** [parseInt] *)

Definition is_space (c : ascii) : bool :=
  let n := Z.of_nat (nat_of_ascii c) in
  ((9 <=? n) && (n <=? 13)) || (n =? 32).

Fixpoint trim_start (s : string) : string :=
  match s with
  | String c r => if is_space c then trim_start r else s
  | EmptyString => s
  end.

Definition digit_in (radix : Z) (c : ascii) : option Z :=
  match hex_value c with
  | Some d => if d <? radix then Some d else None
  | None => None
  end.

(** The longest prefix of digits, read in [radix]; [None] when it is empty. *)
Fixpoint read_digits (radix : Z) (acc : option Z) (s : string) : option Z :=
  match s with
  | EmptyString => acc
  | String c r =>
      match digit_in radix c with
      | Some d =>
          read_digits radix (Some (radix * match acc with Some a => a | None => 0 end + d)) r
      | None => acc
      end
  end.

(** [parseInt(s)] for a string, no radix argument: leading white space, a
    sign, a [0x] prefix selecting radix 16, then digits; [None] is [NaN]. *)
Definition parseInt_string (s : string) : option Z :=
  let s1 := trim_start s in
  let '(sign, s2) :=
    match s1 with
    | String "-" r => (-1, r)
    | String "+" r => (1, r)
    | _ => (1, s1)
    end in
  let '(radix, s3) :=
    match s2 with
    | String "0" (String "x" r) => (16, r)
    | String "0" (String "X" r) => (16, r)
    | _ => (10, s2)
    end in
  match read_digits radix None s3 with
  | Some n => Some (sign * n)
  | None => None
  end.

(** [parseInt(v)]: the argument is first converted with [ToString]. *)
Definition parseInt (v : value) : option Z := parseInt_string (ToString v).

(** *** Property lookup *)

Fixpoint assoc {A : Type} (k : string) (l : list (string * A)) : option A :=
  match l with
  | [] => None
  | (k', a) :: r => if String.eqb k k' then Some a else assoc k r
  end.

(** The properties every object literal inherits from [Object.prototype];
    [__proto__] reads the prototype itself, an object with no enumerable
    property. *)
Definition Object_prototype : list (string * value) :=
  [ ("constructor", VFun "Object");
    ("__defineGetter__", VFun "__defineGetter__");
    ("__defineSetter__", VFun "__defineSetter__");
    ("hasOwnProperty", VFun "hasOwnProperty");
    ("__lookupGetter__", VFun "__lookupGetter__");
    ("__lookupSetter__", VFun "__lookupSetter__");
    ("isPrototypeOf", VFun "isPrototypeOf");
    ("propertyIsEnumerable", VFun "propertyIsEnumerable");
    ("toString", VFun "toString");
    ("valueOf", VFun "valueOf");
    ("__proto__", VJson (JObj []));
    ("toLocaleString", VFun "toLocaleString") ].

(** [o[key]] on an object literal [o]: the key is converted with [ToString];
    own properties first, then the prototype, [undefined] when neither has it. *)
Definition get_property (own : list (string * json)) (key : value) : value :=
  let k := ToString key in
  match assoc k own with
  | Some j => VJson j
  | None =>
      match assoc k Object_prototype with
      | Some v => v
      | None => VUndefined
      end
  end.

(** ** The hash utility *)

(** The message of the [ERR_INVALID_ARG_TYPE] error of [hash.update(undefined)]. *)
Definition invalid_data_message : string :=
  "The " ++ str1 dquote ++ "data" ++ str1 dquote ++
  " argument must be of type string or an instance of Buffer, TypedArray, or DataView. Received undefined".

(** The error of a second response on one request, [ERR_HTTP_HEADERS_SENT]. *)
Definition headers_sent : exn :=
  Error "Cannot set headers after they are sent to the client".

(** [hash.update(data)] followed by [hash.digest('hex')]: Node rejects data
    that is not a string (or a buffer) with [ERR_INVALID_ARG_TYPE]. *)
Definition hash_update_digest (data : option string) : outcome string :=
  match data with
  | Some s => Return (sha256_hex s)
  | None => Throw (TypeError invalid_data_message)
  end.

(** [createBatchHash], lines 110-114. *)
Definition createBatchHash (metadata : value) : outcome string :=
  match JSON_stringify metadata with
  | Throw e => Throw e
  | Return text => hash_update_digest text
  end.

(** ** Records exchanged with the store and the ledger *)

(** A row of table [stage_events] as the store returns it: parsed JSON,
    column by column. *)
Module Row.
Record t : Type := Make {
  batch_id : json;
  event_type : json;
  event_data : json;
  event_hash : json;
  created_at : json
}.
End Row.

(** The object handed to [insert], lines 147-152, as the store receives it. *)
Module NewRow.
Record t : Type := Make {
  batch_id : value;
  event_type : value;
  event_data : value;
  event_hash : string
}.
End NewRow.

(** The reply of a store request, destructured as [{ data, error }]. *)
Record DbReply : Type := {
  data : list Row.t;
  error : option exn
}.

(** The values the contract binding resolves to. *)
Module Raw.
(** Modelled from the spec: the contract's ABI ([onchain/abi.json]) is not
    among the sources. A ledger stage holds a stage kind, a timestamp and a
    metadata hash, the first two being ledger-native integers, which the
    contract binding decodes as BigInt. *)
Record stage : Type := Stage {
  stageType : Z;
  timestamp : Z;
  metadataHash : string
}.
(** Modelled from the spec: the struct tuple [[sku, stageCount, stages[]]] of
    the absent ABI, the stage count being a ledger-native integer. *)
Record summary : Type := Summary {
  sku : string;
  stageCount : Z;
  stages : list stage
}.
(** What [tx.wait()] resolves to: the transaction hash, and
    [logs[0]?.args?.stageIndex] when every link of the chain is there. *)
Record receipt : Type := Receipt {
  hash : string;
  stageIndex : option Z
}.
End Raw.

(** What the ledger client returns from [getBatchSummary] and [addStage]. *)
Module Ledger.
Record stage : Type := Stage {
  stageType : value;
  timestamp : value;
  metadataHash : value
}.
Record summary : Type := Summary {
  sku : value;
  stageCount : value;
  stages : list stage
}.
Record tx : Type := Tx {
  txHash : value;
  stageIndex : value
}.
End Ledger.

(** The JSON copy of a ledger stage, [safeOnChainStage]; a property is [None]
    when the copy does not have it. *)
Module Safe.
Record stage : Type := Stage {
  stageType : option json;
  timestamp : option json;
  metadataHash : option json
}.
End Safe.

(** The per-stage object built by [processStage], lines 236-244. *)
Module Detail.
Record t : Type := Make {
  stage_type : json;
  metadata : json;
  timestamp : json;
  data_integrity : bool;
  on_chain_verified : bool;
  verified : bool;
  on_chain_data : option Safe.stage
}.
End Detail.

Inductive verification_status : Type :=
| FULLY_VERIFIED
| PARTIALLY_VERIFIED
| NOT_VERIFIED.

Record Summary : Type := {
  total_stages : nat;
  verified_stages : nat;
  verification_status_of : verification_status
}.

(** Response bodies, as passed to [res.json]. *)
Inductive body : Type :=
| ErrorBody (error : string)
| ErrorDetailsBody (error details : string)
| StageRecorded (message : string) (data : option Row.t) (batchHash : string)
| BatchStages (batch_id formatted_batch_id : value) (stages : list Detail.t)
    (summary : Summary)
| RatingBody (rating : value).

(** What a handler does that can be seen from outside, in the order it
    happens. *)
Inductive event : Type :=
| StoreInsert (row : NewRow.t)
| StoreSelect (batch_id : value)
| LedgerAddStage (batchId stageType : value) (metadataHash : string)
| LedgerGetBatchSummary (batchId : option Z)
| Respond (code : Z) (b : body)
| ConsoleError (label : string) (e : exn)
| ConsoleLog (tx : Ledger.tx).

(** ** External services *)

(** The store and the contract, over a state [W] of the outside world. A
    contract call completes or fails outright: a failed call leaves the world
    as it was. *)
Class Services (W : Type) : Type := {
  (** [supabase.from('stage_events').insert([row]).select()] *)
  stage_events_insert : W -> NewRow.t -> W * DbReply;
  (** [supabase.from('stage_events').select('*').eq('batch_id', id).order('created_at', ...)] *)
  stage_events_select : W -> value -> DbReply;
  (** [contract.addStage(batchId, stageType, metadataHash)] and [tx.wait()] *)
  contract_addStage : W -> value -> value -> string -> outcome (W * Raw.receipt);
  (** [contract.getBatchSummary(batchId)], [None] being [NaN] *)
  contract_getBatchSummary : W -> option Z -> outcome Raw.summary
}.

(** The services of the analysis route: the download, the text extraction,
    the model call up to [geminiResponse.text()], and [JSON.parse]. *)
Class AiServices : Type := {
  axios_get : value -> outcome string;
  pdf : string -> outcome string;
  generateContent_text : string -> string -> outcome string;
  JSON_parse : string -> outcome json
}.

(** ** Handlers: state, exceptions and the trace *)

Record state (W : Type) : Type := State {
  world : W;
  trace : list event
}.
Arguments State {W} world trace.
Arguments world {W} s.
Arguments trace {W} s.

Definition handler (W A : Type) : Type := state W -> outcome A * state W.

Definition ret {W A : Type} (a : A) : handler W A := fun s => (Return a, s).

Definition throw {W A : Type} (e : exn) : handler W A := fun s => (Throw e, s).

Definition bind {W A B : Type} (m : handler W A) (k : A -> handler W B) : handler W B :=
  fun s =>
    match m s with
    | (Return a, s') => k a s'
    | (Throw e, s') => (Throw e, s')
    end.

(** [try { m } catch (e) { h e }]: what [m] did before it threw stays done. *)
Definition try_catch {W A : Type} (m : handler W A) (h : exn -> handler W A) : handler W A :=
  fun s =>
    match m s with
    | (Return a, s') => (Return a, s')
    | (Throw e, s') => h e s'
    end.

Definition lift {W A : Type} (o : outcome A) : handler W A := fun s => (o, s).

Definition emit {W : Type} (e : event) : handler W unit :=
  fun s => (Return tt, State (world s) (trace s ++ [e])%list).

Declare Scope handler_scope.
Delimit Scope handler_scope with handler.
Notation "x <- c ;; k" := (bind c (fun x => k))
  (at level 61, c at next level, right associativity) : handler_scope.
Notation "c ;; k" := (bind c (fun _ => k))
  (at level 61, right associativity) : handler_scope.
Local Open Scope handler_scope.

Definition is_respond (e : event) : bool :=
  match e with
  | Respond _ _ => true
  | _ => false
  end.

(** The response the caller has received, if any. *)
Definition response_of (t : list event) : option (Z * body) :=
  match find is_respond t with
  | Some (Respond c b) => Some (c, b)
  | _ => None
  end.

(** [res.status(code).json(b)]: a response is sent once; a second attempt
    throws [ERR_HTTP_HEADERS_SENT] and sends nothing. *)
Definition res_json {W : Type} (code : Z) (b : body) : handler W unit :=
  fun s =>
    if existsb is_respond (trace s)
    then (Throw headers_sent, s)
    else emit (Respond code b) s.

Definition console_error {W : Type} (label : string) (e : exn) : handler W unit :=
  emit (ConsoleError label e).

Definition console_log {W : Type} (tx : Ledger.tx) : handler W unit :=
  emit (ConsoleLog tx).

(** [Promise.all(xs.map(f))] for an [f] that never awaits: the calls run in
    order, and the first rejection is the one that is seen. *)
Fixpoint map_all {A B : Type} (f : A -> outcome B) (xs : list A) : outcome (list B) :=
  match xs with
  | [] => Return []
  | x :: r =>
      match f x, map_all f r with
      | Throw e, _ => Throw e
      | Return _, Throw e => Throw e
      | Return b, Return bs => Return (b :: bs)
      end
  end.

(** ** The ledger client, onchain/herbProvenance.js (line numbers of that file) *)

Section LedgerClient.
Context {W : Type} {SV : Services W}.

Definition call_contract_addStage (batchId stageType : value) (metadataHash : string)
  : handler W Raw.receipt :=
  emit (LedgerAddStage batchId stageType metadataHash) ;;
  fun s =>
    match contract_addStage (world s) batchId stageType metadataHash with
    | Return (w', receipt) => (Return receipt, State w' (trace s))
    | Throw e => (Throw e, s)
    end.

Definition call_contract_getBatchSummary (batchId : option Z) : handler W Raw.summary :=
  emit (LedgerGetBatchSummary batchId) ;;
  fun s => (contract_getBatchSummary (world s) batchId, s).

(** [addStage], lines 33-41. *)
Definition addStage (batchId stageType : value) (metadataHash : string)
  : handler W Ledger.tx :=
  receipt <- call_contract_addStage batchId stageType metadataHash ;;
  ret (Ledger.Tx (VJson (JStr (Raw.hash receipt)))
         match Raw.stageIndex receipt with
         | Some i => VJson (JStr (Z_to_string i))
         | None => VUndefined
         end).

(** The mapping of [getBatchSummary], lines 50-58, on the contract's result. *)
Definition summary_of_result (result : Raw.summary) : Ledger.summary :=
  Ledger.Summary
    (VJson (JStr (Raw.sku result)))
    (VJson (JStr (Z_to_string (Raw.stageCount result))))
    (map (fun stage =>
            Ledger.Stage
              (VBigInt (Raw.stageType stage))
              (VJson (JStr (Z_to_string (Raw.timestamp stage))))
              (VJson (JStr (Raw.metadataHash stage))))
         (Raw.stages result)).

(** [getBatchSummary], lines 44-59. *)
Definition getBatchSummary (batchId : option Z) : handler W Ledger.summary :=
  result <- call_contract_getBatchSummary batchId ;;
  ret (summary_of_result result).

End LedgerClient.

(** ** The batch routes, backend/routes/aiRoutes.js from line 78 *)

(** [event_stages], lines 93-97. *)
Definition event_stages : list (string * json) :=
  [ ("CollectionEvent", JNum 0);
    ("QualityTest", JNum 1);
    ("ProcessingStep", JNum 2) ].

(** The three variables destructured from [req.body], line 129; a property
    the body does not have reads [undefined]. *)
Record AddStageBody : Type := {
  formatted_batch_id : value;
  stage_type : value;
  metadata : value
}.

(** The callback of [find], line 221: a ledger stage is of the kind of a
    store row when [parseInt] gives the same number for the two stage types. *)
Definition same_kind (supabaseStage : Row.t) (stage : Ledger.stage) : bool :=
  strict_eq_number (parseInt (Ledger.stageType stage))
                   (parseInt (VJson (Row.event_type supabaseStage))).

(** The copy made at lines 225-229. *)
Definition safe_copy (stage : Ledger.stage) : Safe.stage :=
  Safe.Stage (json_copy_bigint_safe (Ledger.stageType stage))
             (json_copy_bigint_safe (Ledger.timestamp stage))
             (json_copy_bigint_safe (Ledger.metadataHash stage)).

(** [processStage], lines 210-245, for the ledger stage list it closes over. *)
Definition processStage (onChainStages : list Ledger.stage) (supabaseStage : Row.t)
  : outcome Detail.t :=
  match createBatchHash (VJson (Row.event_data supabaseStage)) with
  | Throw e => Throw e
  | Return currentDataHash =>
      let isDataValid :=
        strict_eq (VJson (JStr currentDataHash)) (VJson (Row.event_hash supabaseStage)) in
      let '(onChainVerification, safeOnChainStage) :=
        if isDataValid then
          let onChainStage := find (same_kind supabaseStage) onChainStages in
          let safeOnChainStage :=
            match onChainStage with
            | Some stage => Some (safe_copy stage)
            | None => None
            end in
          let onChainVerification :=
            match safeOnChainStage with
            | Some safe =>
                strict_eq (read_property (Safe.metadataHash safe))
                          (VJson (Row.event_hash supabaseStage))
            | None => false
            end in
          (onChainVerification, safeOnChainStage)
        else (false, None) in
      Return (Detail.Make
                (Row.event_type supabaseStage)
                (Row.event_data supabaseStage)
                (Row.created_at supabaseStage)
                isDataValid
                onChainVerification
                (isDataValid && onChainVerification)
                safeOnChainStage)
  end.

(** The [summary] object of the response, lines 255-264. *)
Definition summary_of (verifiedStages : list Detail.t) : Summary :=
  {| total_stages := List.length verifiedStages;
     verified_stages := List.length (filter Detail.verified verifiedStages);
     verification_status_of :=
       if (0 <? Z.of_nat (List.length verifiedStages)) && forallb Detail.verified verifiedStages
       then FULLY_VERIFIED
       else if existsb Detail.verified verifiedStages
       then PARTIALLY_VERIFIED
       else NOT_VERIFIED |}.

(** The object handed to [insert], lines 147-152. *)
Definition new_row (req : AddStageBody) (batchHash : string) : NewRow.t :=
  NewRow.Make (formatted_batch_id req)
              (get_property event_stages (stage_type req))
              (js_or (metadata req) (VJson (JObj [])))
              batchHash.

Section BatchRoutes.
Context {W : Type} {SV : Services W}.

Definition call_insert (row : NewRow.t) : handler W DbReply :=
  emit (StoreInsert row) ;;
  fun s =>
    let '(w', reply) := stage_events_insert (world s) row in
    (Return reply, State w' (trace s)).

Definition call_select (batch_id : value) : handler W DbReply :=
  emit (StoreSelect batch_id) ;;
  fun s => (Return (stage_events_select (world s) batch_id), s).

(** [router.post('/add-stage-event')], lines 127-172. *)
Definition add_stage_event (req : AddStageBody) : handler W unit :=
  try_catch
    (if loose_eq_undefined (get_property event_stages (stage_type req)) then
       res_json 400 (ErrorBody "Invalid stage type")
     else if falsy (formatted_batch_id req) || loose_eq_undefined (stage_type req) then
       res_json 400 (ErrorBody "batch_id and stage_type are required")
     else
       let batchId := formatted_batch_id req in
       batchHash <- lift (createBatchHash (metadata req)) ;;
       reply <- call_insert (new_row req batchHash) ;;
       match error reply with
       | Some e => throw e
       | None =>
           res_json 201 (StageRecorded "Stage event recorded successfully"
                           (nth_error (data reply) 0) batchHash) ;;
           tx <- addStage batchId (get_property event_stages (stage_type req)) batchHash ;;
           console_log tx
       end)
    (fun error =>
       console_error "Error recording stage event:" error ;;
       res_json 500 (ErrorBody (exn_message error))).

(** [router.get('/batch-stages/:formatted_batch_id')], lines 180-274. *)
Definition get_batch_stages (formatted_batch_id : value) : handler W unit :=
  try_catch
    (if falsy formatted_batch_id then
       res_json 400 (ErrorBody "formatted_batch_id is required")
     else
       let batch_id := formatted_batch_id in
       reply <- call_select batch_id ;;
       match error reply with
       | Some supabaseError => throw supabaseError
       | None =>
           onChainStages <-
             try_catch
               (batchSummary <- getBatchSummary (parseInt batch_id) ;;
                ret (Ledger.stages batchSummary))
               (fun chainError =>
                  console_error "Error fetching on-chain stages:" chainError ;;
                  ret []) ;;
           verifiedStages <- lift (map_all (processStage onChainStages) (data reply)) ;;
           res_json 200 (BatchStages batch_id formatted_batch_id verifiedStages
                           (summary_of verifiedStages))
       end)
    (fun error =>
       console_error "Error fetching batch stages:" error ;;
       res_json 500 (ErrorDetailsBody (exn_message error) "Failed to fetch batch stages")).

(** The ledger fetch of lines 201-207 by what it leaves behind: the stage
    list that verification goes on with, and what was written to the console. *)
Definition ledger_fetch (w : W) (id : value) : list Ledger.stage * list event :=
  match contract_getBatchSummary w (parseInt id) with
  | Return result => (Ledger.stages (summary_of_result result), [])
  | Throw e => ([], [ConsoleError "Error fetching on-chain stages:" e])
  end.

End BatchRoutes.

(** ** The analysis route, backend/routes/aiRoutes.js up to line 77 *)

(** [const { rating } = jsonResponse], line 66: [null] cannot be destructured;
    an object gives its property, anything else has none of that name. *)
Definition destructure_rating (jsonResponse : json) : outcome value :=
  match jsonResponse with
  | JNull =>
      Throw (TypeError "Cannot destructure property 'rating' of 'jsonResponse' as it is null.")
  | JObj ps => Return (get_property ps (VJson (JStr "rating")))
  | _ => Return VUndefined
  end.

(** [const { pdfUrl } = req.body], line 32, which runs before the [try] of
    line 38. [req.body] is [undefined] on a request that has no parsed body,
    and neither [undefined] nor [null] can be destructured; an object gives
    its property, anything else has none of that name. *)
Definition destructure_pdfUrl (body : value) : outcome value :=
  match body with
  | VUndefined =>
      Throw (TypeError "Cannot destructure property 'pdfUrl' of 'req.body' as it is undefined.")
  | VJson JNull =>
      Throw (TypeError "Cannot destructure property 'pdfUrl' of 'req.body' as it is null.")
  | VJson (JObj ps) => Return (get_property ps (VJson (JStr "pdfUrl")))
  | _ => Return VUndefined
  end.

(** The instruction preamble sent ahead of the report's text, lines 11-24. *)
Definition systemPrompt : string :=
  let nl := str1 "010"%char in
  let q := str1 dquote in
  nl ++
  "You are an expert in analyzing lab reports for Ayurvedic herbs. Your task is to analyze the provided lab report of an Ayurvedic herb and determine the quality of the herbs." ++ nl ++ nl ++
  "Based on the lab report, you must provide a quality rating for the herbs. The rating should be one of the following five categories: 'extremely good', 'good', 'healthy', 'bad', or 'very bad'." ++ nl ++ nl ++
  "You must respond with a JSON object containing a single key: " ++ q ++ "rating" ++ q ++ ". The value of this key should be the quality rating you have determined." ++ nl ++ nl ++
  "Example response:" ++ nl ++
  "{" ++ nl ++
  "  " ++ q ++ "rating" ++ q ++ ": " ++ q ++ "good" ++ q ++ nl ++
  "}" ++ nl ++ nl ++
  "Do not include any other information or text in your response. Only the JSON object with the rating is required." ++ nl.

Section AiRoutes.
Context {W : Type} {AI : AiServices}.

(** [router.post('/analyse-pdf')], lines 31-75; [body] is [req.body]. An
    exception of the destructuring leaves the handler, which has sent
    nothing by then. *)
Definition analyse_pdf (body : value) : handler W unit :=
  pdfUrl <- lift (destructure_pdfUrl body) ;;
  if falsy pdfUrl then
    res_json 400 (ErrorBody "PDF URL is required.")
  else
    try_catch
      (buffer <- lift (axios_get pdfUrl) ;;
       pdfText <- lift (pdf buffer) ;;
       text <- lift (generateContent_text systemPrompt pdfText) ;;
       jsonResponse <- lift (JSON_parse text) ;;
       rating <- lift (destructure_rating jsonResponse) ;;
       res_json 200 (RatingBody rating))
      (fun error =>
         console_error "Error analyzing PDF:" error ;;
         res_json 500 (ErrorBody "Failed to analyze PDF.")).

End AiRoutes.

(** Runs a handler on a fresh request: nothing sent, nothing logged. *)
Definition run {W A : Type} (h : handler W A) (w : W) : outcome A * state W :=
  h (State w []).

(** ** An in-memory double of the services

    A store that keeps its rows in a list and a ledger that keeps its stages
    in a list, each with a switch that makes its next calls fail. It is what
    the handlers are run against in the examples. *)
Module InMemory.

Record World : Type := {
  rows : list Row.t;
  store_error : option exn;
  ledger : list (Z * Raw.stage);
  ledger_error : option exn;
  clock : Z
}.

(** A column sent without a JSON notation is stored as SQL [NULL]. *)
Definition column_of (v : value) : json :=
  match v with
  | VJson j => j
  | _ => JNull
  end.

Definition insert (w : World) (r : NewRow.t) : World * DbReply :=
  match store_error w with
  | Some e => (w, {| data := []; error := Some e |})
  | None =>
      let row := Row.Make (column_of (NewRow.batch_id r)) (column_of (NewRow.event_type r))
                          (column_of (NewRow.event_data r)) (JStr (NewRow.event_hash r))
                          (JNum (clock w)) in
      ({| rows := (rows w ++ [row])%list; store_error := None; ledger := ledger w;
          ledger_error := ledger_error w; clock := clock w + 1 |},
       {| data := [row]; error := None |})
  end.

Definition select (w : World) (id : value) : DbReply :=
  match store_error w with
  | Some e => {| data := []; error := Some e |}
  | None =>
      {| data := filter (fun r => String.eqb (json_ToString (Row.batch_id r)) (ToString id))
                        (rows w);
         error := None |}
  end.

Definition stages_of (w : World) (b : Z) : list Raw.stage :=
  map snd (filter (fun p => fst p =? b) (ledger w)).

Definition add_stage (w : World) (batchId stageType : value) (h : string)
  : outcome (World * Raw.receipt) :=
  match ledger_error w, parseInt batchId, parseInt stageType with
  | Some e, _, _ => Throw e
  | None, Some b, Some t =>
      Return ({| rows := rows w; store_error := store_error w;
                 ledger := (ledger w ++ [(b, Raw.Stage t (clock w) h)])%list;
                 ledger_error := None; clock := clock w + 1 |},
              Raw.Receipt "0x01" (Some (Z.of_nat (List.length (stages_of w b)))))
  | None, _, _ => Throw (Error "invalid BigNumberish value")
  end.

Definition get_summary (w : World) (batchId : option Z) : outcome Raw.summary :=
  match ledger_error w, batchId with
  | Some e, _ => Throw e
  | None, Some b =>
      Return (Raw.Summary "herb" (Z.of_nat (List.length (stages_of w b))) (stages_of w b))
  | None, None => Throw (Error "invalid BigNumberish value")
  end.

#[global] Instance services : Services World := {
  stage_events_insert := insert;
  stage_events_select := select;
  contract_addStage := add_stage;
  contract_getBatchSummary := get_summary
}.

(** A model that answers with a rating, one that answers in prose, and a
    [JSON.parse] that knows the first reply and rejects anything else. *)
Definition parse_known (text : string) : outcome json :=
  if String.eqb text "{rating:good}" then Return (JObj [("rating", JStr "good")])
  else Throw (Error "Unexpected token in JSON").

Definition ai : AiServices := {|
  axios_get := fun _ => Return "%PDF-1.7";
  pdf := fun _ => Return "Moisture 12%";
  generateContent_text := fun _ _ => Return "{rating:good}";
  JSON_parse := parse_known
|}.


Definition empty : World :=
  {| rows := []; store_error := None; ledger := []; ledger_error := None; clock := 1700 |}.

End InMemory.

(** ** Sample requests and worlds *)
Module Sample.
Import InMemory.

Definition moisture (n : Z) : json := JObj [("moisture", JNum n)].

(** RecordStage(batch 42, CollectionEvent, [{moisture: n}]). *)
Definition collection (n : Z) : AddStageBody :=
  {| formatted_batch_id := VJson (JStr "42");
     stage_type := VJson (JStr "CollectionEvent");
     metadata := VJson (moisture n) |}.

(** The digest of the serialization of [{moisture: 12}]. *)
Definition hash12 : string :=
  "d72b28067d442c4176c85c9940a52c2ee44893075bfb7a31f147e829783cbe4c".

(** The digest of the serialization of [{moisture: 15}]. *)
Definition hash15 : string :=
  "084a5593d0a0bb18984fbc7f6b73e8ba0c9d4d76fd9857028131bd663c189d4c".

(** The world after one stage event was recorded and mirrored. *)
Definition mirrored : World :=
  Eval vm_compute in world (snd (run (add_stage_event (collection 12)) empty)).

(** The world after a second event of the same kind was recorded and
    mirrored. *)
Definition mirrored_twice : World :=
  Eval vm_compute in world (snd (run (add_stage_event (collection 15)) mirrored)).

(** A world whose ledger cannot be reached. *)
Definition ledger_down (w : World) : World :=
  {| rows := rows w; store_error := store_error w; ledger := ledger w;
     ledger_error := Some (Error "could not detect network"); clock := clock w |}.

(** A row whose metadata was changed after it was hashed. *)
Definition tampered : Row.t :=
  Row.Make (JStr "42") (JNum 0) (moisture 15) (JStr hash12) (JNum 1700).

(** The row and the two ledger stages of [mirrored_twice] that matter. *)
Definition second_row : Row.t :=
  Eval vm_compute in nth 1 (rows mirrored_twice) tampered.

Definition ledger_stage (t : Z) (h : string) : Ledger.stage :=
  Ledger.Stage (VBigInt t) (VJson (JStr "1701")) (VJson (JStr h)).

End Sample.

(** ** Reading a trace *)

(** All the responses sent on one request, in order. *)
Fixpoint responses (t : list event) : list (Z * body) :=
  match t with
  | [] => []
  | Respond c b :: r => (c, b) :: responses r
  | _ :: r => responses r
  end.

Definition is_store_write (e : event) : bool :=
  match e with
  | StoreInsert _ => true
  | _ => false
  end.

Definition is_ledger_write (e : event) : bool :=
  match e with
  | LedgerAddStage _ _ _ => true
  | _ => false
  end.

Definition is_ledger_read (e : event) : bool :=
  match e with
  | LedgerGetBatchSummary _ => true
  | _ => false
  end.

(** A character [0-9a-f]. *)
Definition is_lower_hex (c : ascii) : bool :=
  let n := Z.of_nat (nat_of_ascii c) in
  ((48 <=? n) && (n <=? 57)) || ((97 <=? n) && (n <=? 102)).

(** An integer that a JavaScript number holds exactly, so that [parseInt]
    of its decimal rendering is the integer itself. *)
Definition safe_integer (z : Z) : Prop := Z.abs z < 2 ^ 53.

(** One stage as [getBatchSummary] maps it, lines 53-57 of the ledger client. *)
Definition client_stage (stage : Raw.stage) : Ledger.stage :=
  Ledger.Stage (VBigInt (Raw.stageType stage))
               (VJson (JStr (Z_to_string (Raw.timestamp stage))))
               (VJson (JStr (Raw.metadataHash stage))).

(** ** The routes that create a batch and upload a report

    [router.post('/create')], lines 100-108, with [createBatch] of the ledger
    client (its lines 23-30), and [router.post('/upload-report')], lines
    285-325. They answer with bodies of their own and call services of their
    own, so they have their own trace. *)
Module Reports.

(** What [createBatch] returns: [{ batchId }], the decimal string of
    [logs[0]?.args?.batchId], or [undefined] when a link is missing. *)
Record created : Type := Created {
  batchId : value
}.

(** [req.file] as the upload middleware leaves it. *)
Record file : Type := File {
  originalname : string;
  buffer : string;
  mimetype : string
}.

Inductive reply : Type :=
| ErrorReply (error : string)
| BatchCreated (batchId : created) (message : string)
| FileUploaded (message : string) (fileUrl : string).

Inductive call : Type :=
| ContractCreateBatch (sku : value)
| StorageUpload (filePath : string) (data : string) (contentType : string)
| StorageGetPublicUrl (filePath : string)
| Answer (code : Z) (b : reply)
| LogError (label : string) (e : exn).

(** The contract's [createBatch] with [tx.wait()], giving
    [logs[0]?.args?.batchId]; the storage bucket [events]: [upload] resolves
    to [{ error }] or throws, [getPublicUrl] computes the URL of a path. *)
Class Services (W : Type) : Type := {
  contract_createBatch : W -> value -> outcome (W * option Z);
  storage_upload : W -> string -> string -> string -> outcome (W * option exn);
  storage_getPublicUrl : string -> string
}.

Definition io (W A : Type) : Type := W * list call -> outcome A * (W * list call).

Definition ret {W A : Type} (a : A) : io W A := fun s => (Return a, s).

Definition bind {W A B : Type} (m : io W A) (k : A -> io W B) : io W B :=
  fun s =>
    match m s with
    | (Return a, s') => k a s'
    | (Throw e, s') => (Throw e, s')
    end.

Definition try_catch {W A : Type} (m : io W A) (h : exn -> io W A) : io W A :=
  fun s =>
    match m s with
    | (Return a, s') => (Return a, s')
    | (Throw e, s') => h e s'
    end.

Definition emit {W : Type} (c : call) : io W unit :=
  fun s => (Return tt, (fst s, (snd s ++ [c])%list)).

Declare Scope io_scope.
Delimit Scope io_scope with io.
Notation "x <- c ;; k" := (bind c (fun x => k))
  (at level 61, c at next level, right associativity) : io_scope.
Notation "c ;; k" := (bind c (fun _ => k))
  (at level 61, right associativity) : io_scope.
Local Open Scope io_scope.

Definition is_answer (c : call) : bool :=
  match c with
  | Answer _ _ => true
  | _ => false
  end.

Fixpoint answers (t : list call) : list (Z * reply) :=
  match t with
  | [] => []
  | Answer c b :: r => (c, b) :: answers r
  | _ :: r => answers r
  end.

(** [res.status(code).json(b)], sent once as in the other routes. *)
Definition answer {W : Type} (code : Z) (b : reply) : io W unit :=
  fun s =>
    if existsb is_answer (snd s) then (Throw headers_sent, s)
    else emit (Answer code b) s.

Definition log_error {W : Type} (label : string) (e : exn) : io W unit :=
  emit (LogError label e).

(** [String.prototype.split] on a one-character separator. *)
Fixpoint split_from (sep : ascii) (current : string) (s : string) : list string :=
  match s with
  | EmptyString => [current]
  | String c r =>
      if Ascii.eqb c sep then current :: split_from sep "" r
      else split_from sep (current ++ str1 c) r
  end.

Definition split (sep : ascii) (s : string) : list string := split_from sep "" s.

(** [Array.prototype.pop] on the array that [split] returns, which is never
    empty. *)
Definition pop (l : list string) : string := last l "".

(** A string without a dot. *)
Definition no_dot (s : string) : Prop := ~ In "."%char (list_ascii_of_string s).

(** [error.message || fallback]. *)
Definition message_or (e : exn) (fallback : string) : string :=
  if String.eqb (exn_message e) "" then fallback else exn_message e.

Section Routes.
Context {W : Type} {SV : Services W}.

Definition call_createBatch (sku : value) : io W (option Z) :=
  emit (ContractCreateBatch sku) ;;
  fun s =>
    match contract_createBatch (fst s) sku with
    | Return (w', id) => (Return id, (w', snd s))
    | Throw e => (Throw e, s)
    end.

Definition call_upload (filePath data contentType : string) : io W (option exn) :=
  emit (StorageUpload filePath data contentType) ;;
  fun s =>
    match storage_upload (fst s) filePath data contentType with
    | Return (w', uploadError) => (Return uploadError, (w', snd s))
    | Throw e => (Throw e, s)
    end.

Definition call_getPublicUrl (filePath : string) : io W string :=
  emit (StorageGetPublicUrl filePath) ;;
  ret (storage_getPublicUrl filePath).

(** [createBatch] of the ledger client, its lines 23-30. *)
Definition createBatch (sku : value) : io W created :=
  id <- call_createBatch sku ;;
  ret (Created match id with
               | Some n => VJson (JStr (Z_to_string n))
               | None => VUndefined
               end).

(** [router.post('/create')], lines 100-108; [batchName] is
    [req.body.batchName]. *)
Definition create (batchName : value) : io W unit :=
  try_catch
    (batchId <- createBatch batchName ;;
     answer 200 (BatchCreated batchId "Batch created successfully"))
    (fun error =>
       log_error "" error ;;
       answer 500 (ErrorReply (exn_message error))).

(** The path under which a report is stored, lines 292-294; [now] is
    [Date.now()] and [random] is [Math.random().toString(36).substring(2, 15)]. *)
Definition report_path (originalname : string) (now : Z) (random : string) : string :=
  let fileExt := pop (split "." originalname) in
  let fileName := Z_to_string now ++ "-" ++ random ++ "." ++ fileExt in
  "reports/" ++ fileName.

(** [router.post('/upload-report')], lines 285-325. *)
Definition upload_report (f : option file) (now : Z) (random : string) : io W unit :=
  try_catch
    (match f with
     | None => answer 400 (ErrorReply "No file uploaded")
     | Some file =>
         let filePath := report_path (originalname file) now random in
         uploadError <- call_upload filePath (buffer file) (mimetype file) ;;
         match uploadError with
         | Some e =>
             log_error "Error uploading file:" e ;;
             answer 500 (ErrorReply "Failed to upload file")
         | None =>
             publicUrl <- call_getPublicUrl filePath ;;
             answer 201 (FileUploaded "File uploaded successfully" publicUrl)
         end
     end)
    (fun error =>
       log_error "Error in file upload:" error ;;
       answer 500 (ErrorReply (message_or error "An error occurred during file upload"))).

End Routes.

Definition run {W A : Type} (h : io W A) (w : W) : outcome A * (W * list call) :=
  h (w, []).

Local Close Scope io_scope.

(** An in-memory bucket: the paths it holds, and a switch that makes the
    ledger and the bucket fail. *)
Module InMemory.

Record World : Type := {
  objects : list (string * string);
  batches : Z;
  failure : option exn
}.

Definition create_batch (w : World) (sku : value) : outcome (World * option Z) :=
  match failure w with
  | Some e => Throw e
  | None =>
      Return ({| objects := objects w; batches := batches w + 1; failure := None |},
              Some (batches w + 1))
  end.

Definition upload (w : World) (filePath data contentType : string)
  : outcome (World * option exn) :=
  match failure w with
  | Some e => Return (w, Some e)
  | None =>
      Return ({| objects := (objects w ++ [(filePath, data)])%list;
                 batches := batches w; failure := None |}, None)
  end.

#[global] Instance services : Services World := {
  contract_createBatch := create_batch;
  storage_upload := upload;
  storage_getPublicUrl := fun p => "https://store.example/object/public/events/" ++ p
}.

Definition empty : World := {| objects := []; batches := 0; failure := None |}.

Definition down : World :=
  {| objects := []; batches := 0; failure := Some (Error "fetch failed") |}.

End InMemory.

End Reports.

(** ** More samples *)
Module Sample2.

(** The row the store returns for the event recorded by [Sample.collection 12]. *)
Definition first_row : Row.t :=
  Row.Make (JStr "42") (JNum 0) (Sample.moisture 12) (JStr Sample.hash12) (JNum 1700).

(** A store that answers every request with an error. *)
Definition store_down (w : InMemory.World) : InMemory.World :=
  {| InMemory.rows := InMemory.rows w;
     InMemory.store_error := Some (Error "relation stage_events does not exist");
     InMemory.ledger := InMemory.ledger w;
     InMemory.ledger_error := InMemory.ledger_error w;
     InMemory.clock := InMemory.clock w |}.

(** RecordStage with [metadata: null]. *)
Definition null_metadata : AddStageBody :=
  {| formatted_batch_id := VJson (JStr "42");
     stage_type := VJson (JStr "QualityTest");
     metadata := VJson JNull |}.

(** RecordStage without a batch id. *)
Definition no_batch_id : AddStageBody :=
  {| formatted_batch_id := VUndefined;
     stage_type := VJson (JStr "QualityTest");
     metadata := VJson (Sample.moisture 12) |}.

Definition report : Reports.file :=
  Reports.File "lab.report.final.pdf" "%PDF-1.7" "application/pdf".

(** The body of an analysis request. *)
Definition pdf_request : value :=
  VJson (JObj [("pdfUrl", JStr "https://files.example/report.pdf")]).

(** A ledger with a quality test, then the two collection events of
    [Sample.mirrored_twice]. *)
Definition three_stages : Raw.summary :=
  Raw.Summary "herb" 3
    [Raw.Stage 1 1699 Sample.hash15;
     Raw.Stage 0 1701 Sample.hash12;
     Raw.Stage 0 1703 Sample.hash15].

(** A model whose reply is valid JSON without a rating. *)
Definition ai_no_rating : AiServices := {|
  axios_get := fun _ => Return "%PDF-1.7";
  pdf := fun _ => Return "Moisture 12%";
  generateContent_text := fun _ _ => Return "{}";
  JSON_parse := fun _ => Return (JObj [("quality", JStr "good")])
|}.

End Sample2.

(** ** Proof steps *)

(** Reads one decimal digit in a goal about [read_digits]. *)
Ltac read_digit :=
  cbn [read_digits];
  match goal with
  | |- context [digit_in 10 ?c] =>
      let d := eval vm_compute in (digit_in 10 c) in
      change (digit_in 10 c) with d; cbv iota
  end.

Ltac eval_is_space :=
  repeat match goal with
         | |- context [is_space ?c] =>
             let b := eval vm_compute in (is_space c) in
             change (is_space c) with b
         end.

(** * Properties *)

Arguments sha256_hex : simpl never.
Arguments JSON_render : simpl never.
Arguments Z_to_string : simpl never.

(** ** The primitives on known inputs *)

Example sha256_abc :
  sha256_hex "abc" = "ba7816bf8f01cfea414140de5dae2223b00361a396177a9cb410ff61f20015ad".
Proof. vm_compute. reflexivity. Qed.

Example sha256_empty :
  sha256_hex "" = "e3b0c44298fc1c149afbf4c8996fb92427ae41e4649b934ca495991b7852b855".
Proof. vm_compute. reflexivity. Qed.

Example sha256_56_bytes :
  sha256_hex "aaaaaaaaaaaaaaaaaaaaaaaaaaaaaaaaaaaaaaaaaaaaaaaaaaaaaaaa" =
  "b35439a4ac6f0948b6d6f9e3c6af0f5f590ce20f1bde7090ef7970686ec6738a".
Proof. vm_compute. reflexivity. Qed.

Example render_nested :
  JSON_render (JObj [("moisture", JNum 12); ("tags", JArr [JNull; JBool true; JStr "a\b"])]) =
  "{" ++ QuoteJSONString "moisture" ++ ":12," ++ QuoteJSONString "tags" ++
  ":[null,true," ++ str1 dquote ++ "a\\b" ++ str1 dquote ++ "]}".
Proof. vm_compute. reflexivity. Qed.

Example parseInt_samples :
  parseInt (VJson (JStr "42")) = Some 42 /\
  parseInt (VJson (JStr "1-ABC123")) = Some 1 /\
  parseInt (VJson (JStr "ABC")) = None /\
  parseInt (VBigInt 2) = Some 2 /\
  parseInt (VJson (JNum 2)) = Some 2 /\
  parseInt (VJson JNull) = None.
Proof. vm_compute. repeat split; reflexivity. Qed.

Example event_stages_lookup :
  get_property event_stages (VJson (JStr "QualityTest")) = VJson (JNum 1) /\
  get_property event_stages (VJson (JStr "Harvest")) = VUndefined /\
  get_property event_stages VUndefined = VUndefined /\
  get_property event_stages (VJson (JStr "constructor")) = VFun "Object".
Proof. vm_compute. repeat split; reflexivity. Qed.

(** ** The hash utility *)

Lemma createBatchHash_json (j : json) :
  createBatchHash (VJson j) = Return (sha256_hex (JSON_render j)).
Proof. reflexivity. Qed.

Lemma createBatchHash_undefined :
  exists m, createBatchHash VUndefined = Throw (TypeError m).
Proof. eexists. reflexivity. Qed.

Lemma strict_eq_string_json (a : string) (j : json) :
  strict_eq (VJson (JStr a)) (VJson j) = true <-> j = JStr a.
Proof.
  destruct j; simpl; split; intro H; try discriminate.
  - apply String.eqb_eq in H. now subst.
  - injection H as ->. apply String.eqb_refl.
Qed.

Lemma strict_eq_string_json_false (a : string) (j : json) :
  j <> JStr a -> strict_eq (VJson (JStr a)) (VJson j) = false.
Proof.
  intro H. destruct (strict_eq (VJson (JStr a)) (VJson j)) eqn:E; [|reflexivity].
  apply strict_eq_string_json in E. contradiction.
Qed.

(** C6. The hash utility returns the SHA-256 hexadecimal digest of the JSON
    serialization of its argument: whenever [JSON.stringify] gives a text [s]
    for the metadata, the digest is that of [s], so any value with the same
    serialization, hashed at any time, gets the same digest; and for the
    metadata [{moisture: 12}] the digest is that of the fifteen characters of
    its serialization. *)
Theorem createBatchHash_sha256_of_serialization :
  forall (v : value) (s : string),
    JSON_stringify v = Return (Some s) ->
    createBatchHash v = Return (sha256_hex s) /\
    (forall v', JSON_stringify v' = Return (Some s) -> createBatchHash v' = createBatchHash v) /\
    JSON_stringify (VJson (JObj [("moisture", JNum 12)])) =
      Return (Some ("{" ++ str1 dquote ++ "moisture" ++ str1 dquote ++ ":12}")) /\
    createBatchHash (VJson (JObj [("moisture", JNum 12)])) =
      Return (sha256_hex ("{" ++ str1 dquote ++ "moisture" ++ str1 dquote ++ ":12}")).
Proof.
  intros v s H. repeat split.
  - unfold createBatchHash. now rewrite H.
  - intros v' H'. unfold createBatchHash. now rewrite H, H'.
Qed.

(** ** [processStage] *)

Lemma processStage_invalid (onChainStages : list Ledger.stage) (row : Row.t) :
  Row.event_hash row <> JStr (sha256_hex (JSON_render (Row.event_data row))) ->
  processStage onChainStages row =
  Return (Detail.Make (Row.event_type row) (Row.event_data row) (Row.created_at row)
            false false false None).
Proof.
  intro H. unfold processStage. rewrite createBatchHash_json.
  now rewrite (strict_eq_string_json_false _ _ H).
Qed.

Lemma processStage_valid (onChainStages : list Ledger.stage) (row : Row.t) :
  Row.event_hash row = JStr (sha256_hex (JSON_render (Row.event_data row))) ->
  processStage onChainStages row =
  Return
    (let found := find (same_kind row) onChainStages in
     let ok := match found with
               | Some stage =>
                   strict_eq (read_property (Safe.metadataHash (safe_copy stage)))
                             (VJson (Row.event_hash row))
               | None => false
               end in
     Detail.Make (Row.event_type row) (Row.event_data row) (Row.created_at row)
       true ok ok
       match found with Some stage => Some (safe_copy stage) | None => None end).
Proof.
  intro H. unfold processStage. rewrite createBatchHash_json.
  assert (E : strict_eq (VJson (JStr (sha256_hex (JSON_render (Row.event_data row)))))
                        (VJson (Row.event_hash row)) = true)
    by (now apply strict_eq_string_json).
  rewrite E. cbv zeta. destruct (find (same_kind row) onChainStages); reflexivity.
Qed.

(** [processStage] always returns on a store row. *)
Lemma processStage_total (onChainStages : list Ledger.stage) (row : Row.t) :
  exists d, processStage onChainStages row = Return d.
Proof.
  unfold processStage. rewrite createBatchHash_json.
  destruct (strict_eq _ _); [destruct (find _ _)|]; eexists; reflexivity.
Qed.

(** C1. A stage event whose stored hash is not the hash recomputed from its
    stored metadata gets [data_integrity], [on_chain_verified] and [verified]
    all [false] and no on-chain data, whatever the ledger stage list holds:
    the detail is the same for any two ledger lists, so the list is consulted
    only once the data-integrity check has passed. *)
Theorem processStage_integrity_short_circuits :
  forall (onChainStages : list Ledger.stage) (row : Row.t),
    Row.event_hash row <> JStr (sha256_hex (JSON_render (Row.event_data row))) ->
    (exists d,
        processStage onChainStages row = Return d /\
        Detail.data_integrity d = false /\
        Detail.on_chain_verified d = false /\
        Detail.verified d = false /\
        Detail.on_chain_data d = None) /\
    (forall other : list Ledger.stage,
        processStage other row = processStage onChainStages row).
Proof.
  intros l row H. split.
  - eexists. split; [apply processStage_invalid; exact H|]. repeat split.
  - intro other. now rewrite !processStage_invalid.
Qed.

Lemma find_first_of_kind {A : Type} (p : A -> bool) (before after : list A) (x : A) :
  (forall y, In y before -> p y = false) -> p x = true ->
  find p (before ++ x :: after)%list = Some x.
Proof.
  intros Hb Hx. induction before as [|y before IH]; simpl.
  - now rewrite Hx.
  - rewrite (Hb y (or_introl eq_refl)). apply IH. intros z Hz. apply Hb. now right.
Qed.

(** ** [GetBatchStages] *)

Lemma map_all_total {A B : Type} (f : A -> outcome B) (xs : list A) :
  (forall x, exists b, f x = Return b) ->
  exists bs, map_all f xs = Return bs /\ Forall2 (fun x b => f x = Return b) xs bs.
Proof.
  intro Hf. induction xs as [|x xs [bs [E F]]].
  - exists []. split; [reflexivity|constructor].
  - destruct (Hf x) as [b Hb]. exists (b :: bs). simpl. rewrite Hb, E.
    split; [reflexivity|now constructor].
Qed.

Lemma processStage_empty_ledger (row : Row.t) (d : Detail.t) :
  processStage [] row = Return d ->
  Detail.on_chain_verified d = false /\ Detail.verified d = false /\
  Detail.on_chain_data d = None.
Proof.
  unfold processStage. rewrite createBatchHash_json.
  destruct (strict_eq _ _); simpl; intro H; injection H as <-; repeat split.
Qed.

Section BatchStagesFacts.
Context {W : Type} {SV : Services W}.

Lemma get_batch_stages_run (w : W) (id : value) :
  falsy id = false ->
  error (stage_events_select w id) = None ->
  exists ds,
    map_all (processStage (fst (ledger_fetch w id))) (data (stage_events_select w id))
      = Return ds /\
    run (get_batch_stages id) w =
      (Return tt,
       State w ([StoreSelect id; LedgerGetBatchSummary (parseInt id)]
                  ++ snd (ledger_fetch w id)
                  ++ [Respond 200 (BatchStages id id ds (summary_of ds))])%list).
Proof.
  intros Hid Herr.
  destruct (map_all_total (processStage (fst (ledger_fetch w id)))
              (data (stage_events_select w id))
              (processStage_total _)) as [ds [E _]].
  exists ds. split; [exact E|].
  unfold run, get_batch_stages, try_catch, bind, call_select, getBatchSummary,
    call_contract_getBatchSummary, bind, emit, lift, ret, throw.
  rewrite Hid. cbn. rewrite Herr. cbn.
  unfold ledger_fetch in *.
  destruct (contract_getBatchSummary w (parseInt id)) as [result|e]; cbn in *;
    rewrite E; reflexivity.
Qed.

End BatchStagesFacts.

Lemma map_all_length {A B : Type} (f : A -> outcome B) (xs : list A) :
  forall bs, map_all f xs = Return bs -> List.length bs = List.length xs.
Proof.
  induction xs as [|x xs IH]; simpl; intros bs H.
  - now injection H as <-.
  - destruct (f x); [|discriminate]. destruct (map_all f xs); [|discriminate].
    injection H as <-. simpl. now rewrite (IH _ eq_refl).
Qed.

Lemma map_all_In {A B : Type} (f : A -> outcome B) (xs : list A) :
  forall bs b, map_all f xs = Return bs -> In b bs -> exists x, In x xs /\ f x = Return b.
Proof.
  induction xs as [|x xs IH]; simpl; intros bs b H Hin.
  - injection H as <-. contradiction.
  - destruct (f x) as [b0|] eqn:E; [|discriminate].
    destruct (map_all f xs) as [bs0|]; [|discriminate].
    injection H as <-. destruct Hin as [<-|Hin].
    + exists x. auto.
    + destruct (IH _ _ eq_refl Hin) as [y [Hy Hf]]. exists y. auto.
Qed.

(** The three cases of the batch-level status, lines 258-263. *)
Lemma summary_status_cases (ds : list Detail.t) :
  ((ds <> [] /\ forall d, In d ds -> Detail.verified d = true) ->
   verification_status_of (summary_of ds) = FULLY_VERIFIED) /\
  (((exists d, In d ds /\ Detail.verified d = true) /\
    (exists d, In d ds /\ Detail.verified d = false)) ->
   verification_status_of (summary_of ds) = PARTIALLY_VERIFIED) /\
  ((forall d, In d ds -> Detail.verified d = false) ->
   verification_status_of (summary_of ds) = NOT_VERIFIED).
Proof.
  unfold summary_of; cbn [verification_status_of]. repeat split.
  - intros [Hne Hall]. destruct ds as [|d ds]; [contradiction|].
    assert (F : forallb Detail.verified (d :: ds) = true) by (now apply forallb_forall).
    rewrite F. reflexivity.
  - intros [[d1 [H1 V1]] [d0 [H0 V0]]].
    assert (F : forallb Detail.verified ds = false).
    { destruct (forallb Detail.verified ds) eqn:E; [|reflexivity].
      rewrite forallb_forall in E. rewrite (E d0 H0) in V0. discriminate. }
    assert (X : existsb Detail.verified ds = true)
      by (apply existsb_exists; now exists d1).
    rewrite F, X, andb_false_r. reflexivity.
  - intro Hnone.
    assert (X : existsb Detail.verified ds = false).
    { destruct (existsb Detail.verified ds) eqn:E; [|reflexivity].
      apply existsb_exists in E. destruct E as [d [Hd Vd]].
      rewrite (Hnone d Hd) in Vd. discriminate. }
    rewrite X. destruct ds as [|d ds]; [reflexivity|].
    cbn [forallb]. rewrite (Hnone d (or_introl eq_refl)), andb_false_r. reflexivity.
Qed.

Section BatchStagesClaims.
Context {W : Type} {SV : Services W}.

Lemma ledger_fetch_log (w : W) (id : value) :
  existsb is_respond
    ([StoreSelect id; LedgerGetBatchSummary (parseInt id)] ++ snd (ledger_fetch w id))%list
  = false.
Proof.
  unfold ledger_fetch. destruct (contract_getBatchSummary w (parseInt id)); reflexivity.
Qed.

Lemma response_of_last (t : list event) (code : Z) (b : body) :
  existsb is_respond t = false ->
  response_of (t ++ [Respond code b])%list = Some (code, b).
Proof.
  unfold response_of. induction t as [|e t IH]; simpl; [reflexivity|].
  destruct (is_respond e); [discriminate|]. exact IH.
Qed.

(** C2. Whenever GetBatchStages answers with stage details, the status of the
    summary follows them: [FULLY_VERIFIED] when there is a stage and every
    stage is verified, [PARTIALLY_VERIFIED] when some stage is verified and
    some is not, [NOT_VERIFIED] otherwise, that is when no stage is verified;
    and a batch with no stage event is answered with an empty stage list and
    [NOT_VERIFIED]. *)
Theorem get_batch_stages_verification_status :
  forall (w : W) (id : value),
    falsy id = false ->
    error (stage_events_select w id) = None ->
    exists ds,
      response_of (trace (snd (run (get_batch_stages id) w))) =
        Some (200, BatchStages id id ds (summary_of ds)) /\
      List.length ds = List.length (data (stage_events_select w id)) /\
      ((ds <> [] /\ forall d, In d ds -> Detail.verified d = true) ->
       verification_status_of (summary_of ds) = FULLY_VERIFIED) /\
      (((exists d, In d ds /\ Detail.verified d = true) /\
        (exists d, In d ds /\ Detail.verified d = false)) ->
       verification_status_of (summary_of ds) = PARTIALLY_VERIFIED) /\
      ((forall d, In d ds -> Detail.verified d = false) ->
       verification_status_of (summary_of ds) = NOT_VERIFIED) /\
      (data (stage_events_select w id) = [] ->
       ds = [] /\ verification_status_of (summary_of ds) = NOT_VERIFIED).
Proof.
  intros w id Hid Herr.
  destruct (get_batch_stages_run w id Hid Herr) as [ds [E R]].
  exists ds. rewrite R. cbn [snd trace].
  split.
  { rewrite app_assoc. apply response_of_last, ledger_fetch_log. }
  split; [exact (map_all_length _ _ _ E)|].
  destruct (summary_status_cases ds) as [F [P N]].
  repeat split; try assumption.
  - rewrite H in E. simpl in E. now injection E as <-.
  - rewrite H in E. simpl in E. injection E as <-. reflexivity.
Qed.

(** C3. When the ledger fetch fails, GetBatchStages goes on with an empty
    ledger stage list: the failure is written to the console, the handler
    returns normally, the caller gets a 200 with one detail per stage event
    and the summary, and every detail has [on_chain_verified = false],
    [verified = false] and no on-chain data. *)
Theorem get_batch_stages_survives_ledger_failure :
  forall (w : W) (id : value) (e : exn),
    falsy id = false ->
    error (stage_events_select w id) = None ->
    contract_getBatchSummary w (parseInt id) = Throw e ->
    exists ds,
      map_all (processStage []) (data (stage_events_select w id)) = Return ds /\
      run (get_batch_stages id) w =
        (Return tt,
         State w [StoreSelect id;
                  LedgerGetBatchSummary (parseInt id);
                  ConsoleError "Error fetching on-chain stages:" e;
                  Respond 200 (BatchStages id id ds (summary_of ds))]) /\
      List.length ds = List.length (data (stage_events_select w id)) /\
      (forall d, In d ds ->
         Detail.on_chain_verified d = false /\ Detail.verified d = false /\
         Detail.on_chain_data d = None).
Proof.
  intros w id e Hid Herr Hfail.
  destruct (get_batch_stages_run w id Hid Herr) as [ds [E R]].
  unfold ledger_fetch in E, R. rewrite Hfail in E, R. cbn in E, R.
  exists ds. repeat split; try assumption.
  - exact (map_all_length _ _ _ E).
  - destruct (map_all_In _ _ _ _ E H) as [row [_ Hrow]].
    apply (processStage_empty_ledger _ _ Hrow).
  - destruct (map_all_In _ _ _ _ E H) as [row [_ Hrow]].
    apply (processStage_empty_ledger _ _ Hrow).
  - destruct (map_all_In _ _ _ _ E H) as [row [_ Hrow]].
    apply (processStage_empty_ledger _ _ Hrow).
Qed.

End BatchStagesClaims.

(** ** [RecordStage] *)

Section RecordStageClaims.
Context {W : Type} {SV : Services W}.

(** The guard of line 132 rejects a stage type that neither [event_stages]
    nor [Object.prototype] has a property for: 400, and nothing else happens. *)
Lemma add_stage_event_unknown_stage_type (w : W) (req : AddStageBody) :
  loose_eq_undefined (get_property event_stages (stage_type req)) = true ->
  run (add_stage_event req) w =
  (Return tt, State w [Respond 400 (ErrorBody "Invalid stage type")]).
Proof.
  intro H. unfold run, add_stage_event, try_catch. rewrite H. reflexivity.
Qed.

Lemma add_stage_event_missing_stage_type (w : W) (id md : value) :
  run (add_stage_event {| formatted_batch_id := id; stage_type := VUndefined;
                          metadata := md |}) w =
  (Return tt, State w [Respond 400 (ErrorBody "Invalid stage type")]).
Proof. now apply add_stage_event_unknown_stage_type. Qed.

(** A stage type that passes the guard of line 132 is not [undefined]. *)
Lemma accepted_stage_type_defined (v : value) :
  loose_eq_undefined (get_property event_stages v) = false ->
  loose_eq_undefined v = false.
Proof.
  destruct v as [| | |[]]; try reflexivity; intro H; vm_compute in H; discriminate.
Qed.

Lemma assoc_In {A : Type} (k : string) (l : list (string * A)) :
  (exists a, assoc k l = Some a) <-> In k (map fst l).
Proof.
  induction l as [|[k' a] l IH]; simpl.
  - split; [intros [a H]; discriminate|contradiction].
  - destruct (String.eqb k k') eqn:E.
    + apply String.eqb_eq in E. subst. split; [auto|intros _; now exists a].
    + apply String.eqb_neq in E. rewrite IH. split; [auto|intros [H|H]; congruence].
Qed.

(** X1. The stage types that pass the guard of line 132 are exactly those
    whose string form names one of the three properties of [event_stages] or
    one of the twelve that it inherits from [Object.prototype]. *)
Lemma stage_type_guard_accepts (v : value) :
  loose_eq_undefined (get_property event_stages v) = false <->
  In (ToString v) (map fst event_stages) \/ In (ToString v) (map fst Object_prototype).
Proof.
  unfold get_property. rewrite <- !assoc_In.
  assert (Own : forall k j, assoc k event_stages = Some j ->
                            loose_eq_undefined (VJson j) = false).
  { intros k j. unfold event_stages. cbn [assoc].
    repeat (destruct (String.eqb k _); [intro H; injection H as <-; reflexivity|]).
    discriminate. }
  assert (Inh : forall k x, assoc k Object_prototype = Some x ->
                            loose_eq_undefined x = false).
  { intros k x. unfold Object_prototype. cbn [assoc].
    repeat (destruct (String.eqb k _); [intro H; injection H as <-; reflexivity|]).
    discriminate. }
  destruct (assoc (ToString v) event_stages) as [j|] eqn:E1.
  - split; [intros _; left; now exists j|intros _; exact (Own _ _ E1)].
  - destruct (assoc (ToString v) Object_prototype) as [x|] eqn:E2.
    + split; [intros _; right; now exists x|intros _; exact (Inh _ _ E2)].
    + split; [discriminate|intros [[a H]|[a H]]; discriminate].
Qed.

(** When hashing the metadata throws, the request ends in a 500 that carries
    the message of the error, and the store is not written. *)
Lemma add_stage_event_hash_failure (w : W) (req : AddStageBody) (e : exn) :
  loose_eq_undefined (get_property event_stages (stage_type req)) = false ->
  falsy (formatted_batch_id req) = false ->
  createBatchHash (metadata req) = Throw e ->
  run (add_stage_event req) w =
  (Return tt,
   State w [ConsoleError "Error recording stage event:" e;
            Respond 500 (ErrorBody (exn_message e))]).
Proof.
  intros Ht Hid Hh. unfold run, add_stage_event, try_catch, bind, lift.
  rewrite Ht, Hid, (accepted_stage_type_defined _ Ht), Hh. reflexivity.
Qed.

(** C8. A request with a batch id, the stage type [CollectionEvent] and no
    metadata does not get a 201: hashing the absent metadata throws, the
    caller gets a 500 with the message of the [TypeError], and no insert
    reaches the store, so no row with an empty [event_data] is written. *)
Theorem add_stage_event_without_metadata :
  forall (w : W),
    run (add_stage_event {| formatted_batch_id := VJson (JStr "42");
                            stage_type := VJson (JStr "CollectionEvent");
                            metadata := VUndefined |}) w =
    (Return tt,
     State w [ConsoleError "Error recording stage event:" (TypeError invalid_data_message);
              Respond 500 (ErrorBody invalid_data_message)]).
Proof.
  intro w. now apply add_stage_event_hash_failure.
Qed.

(** The run of a request that passes both guards and whose insert succeeds,
    up to the ledger call. *)
Lemma add_stage_event_after_insert (w w1 : W) (req : AddStageBody) (batchHash : string)
      (reply : DbReply) :
  loose_eq_undefined (get_property event_stages (stage_type req)) = false ->
  falsy (formatted_batch_id req) = false ->
  createBatchHash (metadata req) = Return batchHash ->
  stage_events_insert w (new_row req batchHash) = (w1, reply) ->
  error reply = None ->
  run (add_stage_event req) w =
  let sent := [StoreInsert (new_row req batchHash);
               Respond 201 (StageRecorded "Stage event recorded successfully"
                              (nth_error (data reply) 0) batchHash);
               LedgerAddStage (formatted_batch_id req)
                 (get_property event_stages (stage_type req)) batchHash] in
  match contract_addStage w1 (formatted_batch_id req)
          (get_property event_stages (stage_type req)) batchHash with
  | Return (w2, receipt) =>
      (Return tt,
       State w2 (sent ++ [ConsoleLog
                  (Ledger.Tx (VJson (JStr (Raw.hash receipt)))
                     match Raw.stageIndex receipt with
                     | Some i => VJson (JStr (Z_to_string i))
                     | None => VUndefined
                     end)])%list)
  | Throw e =>
      (Throw headers_sent,
       State w1 (sent ++ [ConsoleError "Error recording stage event:" e])%list)
  end.
Proof.
  intros Ht Hid Hh Hins Herr.
  unfold run, add_stage_event, try_catch, bind, lift, call_insert, addStage,
    call_contract_addStage, bind, emit, ret, throw, console_log, console_error, res_json.
  rewrite Ht, Hid, (accepted_stage_type_defined _ Ht), Hh.
  cbn -[new_row]. rewrite Hins. cbn -[new_row]. rewrite Herr. cbn -[new_row].
  destruct (contract_addStage w1 _ _ _) as [[w2 receipt]|e]; reflexivity.
Qed.

(** C5. Once the insert has succeeded, the caller is sent the 201 with the
    inserted record and the computed hash before the ledger is called; and if
    that call fails, the error goes to the console, the 500 that the catch
    block then attempts is refused because a response was already sent, so
    the caller keeps the 201, and the world is left as the insert made it:
    the row is in the store and the ledger has no stage for it. *)
Theorem add_stage_event_ledger_failure_swallowed :
  forall (w w1 : W) (req : AddStageBody) (batchHash : string) (reply : DbReply),
    loose_eq_undefined (get_property event_stages (stage_type req)) = false ->
    falsy (formatted_batch_id req) = false ->
    createBatchHash (metadata req) = Return batchHash ->
    stage_events_insert w (new_row req batchHash) = (w1, reply) ->
    error reply = None ->
    let created := StageRecorded "Stage event recorded successfully"
                     (nth_error (data reply) 0) batchHash in
    let stageType := get_property event_stages (stage_type req) in
    (exists rest,
        trace (snd (run (add_stage_event req) w)) =
          StoreInsert (new_row req batchHash)
            :: Respond 201 created
            :: LedgerAddStage (formatted_batch_id req) stageType batchHash
            :: rest /\
        response_of (trace (snd (run (add_stage_event req) w))) = Some (201, created)) /\
    (forall e : exn,
        contract_addStage w1 (formatted_batch_id req) stageType batchHash = Throw e ->
        run (add_stage_event req) w =
          (Throw headers_sent,
           State w1 [StoreInsert (new_row req batchHash);
                     Respond 201 created;
                     LedgerAddStage (formatted_batch_id req) stageType batchHash;
                     ConsoleError "Error recording stage event:" e]) /\
        response_of (trace (snd (run (add_stage_event req) w))) = Some (201, created)).
Proof.
  intros w w1 req batchHash reply Ht Hid Hh Hins Herr created stageType.
  rewrite (add_stage_event_after_insert w w1 req batchHash reply Ht Hid Hh Hins Herr).
  cbv zeta. fold stageType. fold created. split.
  - destruct (contract_addStage w1 _ _ _) as [[w2 receipt]|e]; cbn;
      (eexists; split; reflexivity).
  - intros e He. rewrite He. cbn. split; reflexivity.
Qed.

(** C4. The stage type [constructor] is not one of the three stage kinds, yet
    the request is not refused: the lookup of line 132 finds the property that
    [event_stages] inherits from [Object.prototype], so the handler goes on to
    insert a row whose [event_type] is that function, and whatever the store
    and the ledger answer, the caller never gets a 400. *)
Theorem add_stage_event_inherited_stage_type :
  forall (w : W),
    let req := {| formatted_batch_id := VJson (JStr "42");
                  stage_type := VJson (JStr "constructor");
                  metadata := VJson (JObj [("moisture", JNum 12)]) |} in
    get_property event_stages (stage_type req) = VFun "Object" /\
    (exists batchHash rest,
        trace (snd (run (add_stage_event req) w)) =
          StoreInsert (NewRow.Make (VJson (JStr "42")) (VFun "Object")
                         (VJson (JObj [("moisture", JNum 12)])) batchHash) :: rest) /\
    (forall b, response_of (trace (snd (run (add_stage_event req) w))) <> Some (400, b)).
Proof.
  intros w req. split; [reflexivity|].
  destruct (stage_events_insert w (new_row req
              (sha256_hex (JSON_render (JObj [("moisture", JNum 12)]))))) as [w1 reply] eqn:Hins.
  destruct (error reply) as [e|] eqn:Herr.
  - unfold run, add_stage_event, try_catch, bind, lift, call_insert, bind, emit, ret, throw,
      console_error, res_json.
    cbn -[new_row]. rewrite Hins. cbn -[new_row]. rewrite Herr. cbn.
    split; [eexists; eexists; reflexivity|]. intros b H. discriminate.
  - rewrite (add_stage_event_after_insert w w1 req _ reply eq_refl eq_refl eq_refl Hins Herr).
    cbv zeta.
    destruct (contract_addStage w1 _ _ _) as [[w2 receipt]|e]; cbn;
      (split; [eexists; eexists; reflexivity|intros b H; discriminate]).
Qed.

End RecordStageClaims.

(** ** The ledger client *)

(** C7, as the code has it. [getBatchSummary] returns the contract's result
    mapped by [summary_of_result], where the stage count and every timestamp
    are decimal strings and every stage type is the BigInt that the contract
    returned; the stage type becomes a decimal string only in the copy that
    GetBatchStages makes of a ledger stage. *)
Theorem getBatchSummary_converts_count_and_timestamps :
  forall (W : Type) (SV : Services W) (s : state W) (batchId : option Z) (result : Raw.summary),
    fst (getBatchSummary batchId s) =
      match contract_getBatchSummary (world s) batchId with
      | Return r => Return (summary_of_result r)
      | Throw e => Throw e
      end /\
    Ledger.stageCount (summary_of_result result) =
      VJson (JStr (Z_to_string (Raw.stageCount result))) /\
    map Ledger.timestamp (Ledger.stages (summary_of_result result)) =
      map (fun stage => VJson (JStr (Z_to_string (Raw.timestamp stage)))) (Raw.stages result) /\
    map Ledger.stageType (Ledger.stages (summary_of_result result)) =
      map (fun stage => VBigInt (Raw.stageType stage)) (Raw.stages result) /\
    map (fun stage => Safe.stageType (safe_copy stage))
        (Ledger.stages (summary_of_result result)) =
      map (fun stage => Some (JStr (Z_to_string (Raw.stageType stage)))) (Raw.stages result).
Proof.
  intros W SV s batchId result. split.
  - unfold getBatchSummary, call_contract_getBatchSummary, bind, emit, ret. cbn.
    destruct (contract_getBatchSummary (world s) batchId); reflexivity.
  - unfold summary_of_result. cbn [Ledger.stageCount Ledger.stages].
    rewrite !map_map. repeat split.
Qed.

(** C7, as stated, fails on a ledger with one stage: the stage type that
    comes out of the ledger client is a BigInt, not a string. *)
Lemma getBatchSummary_stage_type_not_a_string :
  fst (run (getBatchSummary (Some 42)) Sample.mirrored) =
    Return (Ledger.Summary (VJson (JStr "herb")) (VJson (JStr "1"))
              [Ledger.Stage (VBigInt 0) (VJson (JStr "1701")) (VJson (JStr Sample.hash12))]) /\
  is_string (VBigInt 0) = false.
Proof. split; [vm_compute; reflexivity|reflexivity]. Qed.

(** ** The analysis route *)

Lemma destructure_rating_object (ps : list (string * json)) :
  destructure_rating (JObj ps) =
  Return match assoc "rating" ps with
         | Some r => VJson r
         | None => VUndefined
         end.
Proof.
  unfold destructure_rating, get_property. cbn [ToString json_ToString].
  destruct (assoc "rating" ps); reflexivity.
Qed.

Lemma read_pdfUrl (fields : list (string * json)) :
  destructure_pdfUrl (VJson (JObj fields)) =
  Return match assoc "pdfUrl" fields with
         | Some url => VJson url
         | None => VUndefined
         end.
Proof.
  unfold destructure_pdfUrl, get_property. cbn [ToString json_ToString].
  destruct (assoc "pdfUrl" fields); reflexivity.
Qed.

(** A request without a parsed body does not reach the test of line 34: the
    destructuring of line 32 throws outside the [try], and the handler ends
    without having sent anything. *)
Lemma analyse_pdf_without_body (W : Type) (AI : AiServices) (w : W) :
  run (analyse_pdf VUndefined) w =
  (Throw (TypeError
     "Cannot destructure property 'pdfUrl' of 'req.body' as it is undefined."),
   State w []).
Proof. reflexivity. Qed.


(** ** The handlers on the in-memory services *)

Lemma createBatchHash_sha256_of_serialization_witness :
  createBatchHash (VJson (Sample.moisture 12)) = Return Sample.hash12.
Proof.
  exact (proj1 (createBatchHash_sha256_of_serialization
                  (VJson (Sample.moisture 12))
                  ("{" ++ str1 dquote ++ "moisture" ++ str1 dquote ++ ":12}")
                  eq_refl)).
Defined.

Lemma processStage_integrity_short_circuits_witness :
  Row.event_hash Sample.tampered <>
    JStr (sha256_hex (JSON_render (Row.event_data Sample.tampered))) /\
  exists d,
    processStage [Sample.ledger_stage 0 Sample.hash12] Sample.tampered = Return d /\
    Detail.data_integrity d = false /\
    Detail.on_chain_verified d = false /\
    Detail.verified d = false /\
    Detail.on_chain_data d = None.
Proof.
  assert (H : Row.event_hash Sample.tampered <>
              JStr (sha256_hex (JSON_render (Row.event_data Sample.tampered))))
    by (intro H; vm_compute in H; discriminate H).
  split; [exact H|].
  exact (proj1 (processStage_integrity_short_circuits
                  [Sample.ledger_stage 0 Sample.hash12] Sample.tampered H)).
Defined.

Lemma get_batch_stages_verification_status_witness :
  exists ds,
    response_of (trace (snd (run (get_batch_stages (VJson (JStr "42")))
                                 Sample.mirrored_twice))) =
      Some (200, BatchStages (VJson (JStr "42")) (VJson (JStr "42")) ds (summary_of ds)) /\
    List.length ds = 2%nat.
Proof.
  destruct (get_batch_stages_verification_status
              (SV := InMemory.services) Sample.mirrored_twice (VJson (JStr "42"))
              eq_refl eq_refl) as [ds [H1 [H2 _]]].
  exists ds. split; [exact H1|exact H2].
Defined.

Lemma get_batch_stages_survives_ledger_failure_witness :
  exists ds,
    run (get_batch_stages (VJson (JStr "42"))) (Sample.ledger_down Sample.mirrored) =
      (Return tt,
       State (Sample.ledger_down Sample.mirrored)
         [StoreSelect (VJson (JStr "42"));
          LedgerGetBatchSummary (Some 42);
          ConsoleError "Error fetching on-chain stages:" (Error "could not detect network");
          Respond 200 (BatchStages (VJson (JStr "42")) (VJson (JStr "42")) ds
                         (summary_of ds))]) /\
    List.length ds = 1%nat /\
    (forall d, In d ds -> Detail.verified d = false).
Proof.
  destruct (get_batch_stages_survives_ledger_failure
              (SV := InMemory.services) (Sample.ledger_down Sample.mirrored)
              (VJson (JStr "42")) (Error "could not detect network")
              eq_refl eq_refl eq_refl) as [ds [_ [H1 [H2 H3]]]].
  exists ds. split; [exact H1|]. split; [exact H2|].
  intros d Hd. exact (proj1 (proj2 (H3 d Hd))).
Defined.

Lemma add_stage_event_ledger_failure_swallowed_witness :
  let w := Sample.ledger_down InMemory.empty in
  let row := Row.Make (JStr "42") (JNum 0) (Sample.moisture 12) (JStr Sample.hash12)
                      (JNum 1700) in
  let created := StageRecorded "Stage event recorded successfully" (Some row) Sample.hash12 in
  fst (run (add_stage_event (Sample.collection 12)) w) = Throw headers_sent /\
  trace (snd (run (add_stage_event (Sample.collection 12)) w)) =
    [StoreInsert (new_row (Sample.collection 12) Sample.hash12);
     Respond 201 created;
     LedgerAddStage (VJson (JStr "42")) (VJson (JNum 0)) Sample.hash12;
     ConsoleError "Error recording stage event:" (Error "could not detect network")] /\
  response_of (trace (snd (run (add_stage_event (Sample.collection 12)) w))) =
    Some (201, created) /\
  InMemory.rows (world (snd (run (add_stage_event (Sample.collection 12)) w))) = [row] /\
  InMemory.ledger (world (snd (run (add_stage_event (Sample.collection 12)) w))) = [].
Proof.
  intros w row created.
  destruct (proj2 (add_stage_event_ledger_failure_swallowed
                     (SV := InMemory.services) w
                     (fst (InMemory.insert w (new_row (Sample.collection 12) Sample.hash12)))
                     (Sample.collection 12) Sample.hash12
                     (snd (InMemory.insert w (new_row (Sample.collection 12) Sample.hash12)))
                     eq_refl eq_refl eq_refl eq_refl eq_refl)
                  (Error "could not detect network") eq_refl) as [H1 H2].
  split; [now rewrite H1|]. split; [now rewrite H1|]. split; [exact H2|].
  rewrite H1. split; reflexivity.
Defined.


Example sample_hashes :
  sha256_hex (JSON_render (Sample.moisture 12)) = Sample.hash12 /\
  sha256_hex (JSON_render (Sample.moisture 15)) = Sample.hash15 /\
  Row.event_hash Sample.second_row = JStr Sample.hash15 /\
  InMemory.stages_of Sample.mirrored_twice 42 =
    [Raw.Stage 0 1701 Sample.hash12; Raw.Stage 0 1703 Sample.hash15].
Proof. vm_compute. repeat split; reflexivity. Qed.

(** The recording scenario: batch 42, [CollectionEvent], [{moisture: 12}]. *)
Example record_stage_scenario :
  response_of (trace (snd (run (add_stage_event (Sample.collection 12)) InMemory.empty))) =
  Some (201,
        StageRecorded "Stage event recorded successfully"
          (Some (Row.Make (JStr "42") (JNum 0) (Sample.moisture 12) (JStr Sample.hash12)
                          (JNum 1700)))
          Sample.hash12).
Proof. vm_compute. reflexivity. Qed.

(** Two events of the same kind, both mirrored: the second is compared with
    the ledger stage of the first and the batch is only partly verified. *)
Example same_kind_twice_partially_verified :
  exists ds,
    response_of (trace (snd (run (get_batch_stages (VJson (JStr "42")))
                                 Sample.mirrored_twice))) =
      Some (200, BatchStages (VJson (JStr "42")) (VJson (JStr "42")) ds
                   {| total_stages := 2; verified_stages := 1;
                      verification_status_of := PARTIALLY_VERIFIED |}) /\
    map Detail.verified ds = [true; false] /\
    map Detail.data_integrity ds = [true; true].
Proof. eexists. split; [vm_compute; reflexivity|]. split; reflexivity. Qed.

(** A batch the store has no row for. *)
Example empty_batch_not_verified :
  response_of (trace (snd (run (get_batch_stages (VJson (JStr "7"))) Sample.mirrored))) =
  Some (200, BatchStages (VJson (JStr "7")) (VJson (JStr "7")) []
               {| total_stages := 0; verified_stages := 0;
                  verification_status_of := NOT_VERIFIED |}).
Proof. vm_compute. reflexivity. Qed.

(** * Further properties *)

(** ** [parseInt] on decimal renderings *)

Lemma read_digits_acc (u : Decimal.uint) :
  forall a : positive,
    read_digits 10 (Some (Zpos a)) (NilEmpty.string_of_uint u) =
    Some (Zpos (Pos.of_uint_acc u a)).
Proof.
  induction u; intro a; cbn [NilEmpty.string_of_uint Pos.of_uint_acc];
    [reflexivity|..]; read_digit;
    match goal with
    | |- read_digits 10 (Some ?z) _ = Some (Z.pos (Pos.of_uint_acc _ ?p)) =>
        replace z with (Z.pos p) by lia; apply IHu
    end.
Qed.

Lemma read_digits_zero (u : Decimal.uint) :
  read_digits 10 (Some 0) (NilEmpty.string_of_uint u) = Some (Z.of_N (Pos.of_uint u)).
Proof.
  induction u; cbn [NilEmpty.string_of_uint Pos.of_uint]; [reflexivity|..]; read_digit.
  1: exact IHu.
  all: exact (read_digits_acc u _).
Qed.

Lemma read_digits_start (u : Decimal.uint) :
  u <> Decimal.Nil ->
  read_digits 10 None (NilEmpty.string_of_uint u) = Some (Z.of_N (Pos.of_uint u)).
Proof.
  intro H. rewrite <- read_digits_zero. destruct u; [contradiction|..]; reflexivity.
Qed.

Lemma parseInt_string_uint (u : Decimal.uint) :
  u <> Decimal.Nil ->
  parseInt_string (NilEmpty.string_of_uint u) =
    read_digits 10 None (NilEmpty.string_of_uint u) /\
  parseInt_string (String "-" (NilEmpty.string_of_uint u)) =
    option_map Z.opp (read_digits 10 None (NilEmpty.string_of_uint u)).
Proof.
  intro H.
  destruct u as [|u|u|u|u|u|u|u|u|u|u]; [contradiction|..];
    (destruct u; split;
     (reflexivity ||
      (unfold parseInt_string; cbn [NilEmpty.string_of_uint trim_start];
       eval_is_space; cbv beta iota zeta;
       destruct (read_digits _ _ _); cbn [option_map]; [f_equal; lia|reflexivity]))).
Qed.

(** [parseInt] reads back the decimal rendering of an integer. *)
Lemma parseInt_string_Z_to_string (z : Z) : parseInt_string (Z_to_string z) = Some z.
Proof.
  unfold Z_to_string. destruct z as [|p|p]; [reflexivity|..];
    cbn [Z.to_int NilZero.string_of_int];
    assert (N := Stdlib.Numbers.DecimalPos.Unsigned.to_uint_nonnil p);
    assert (E : NilZero.string_of_uint (Pos.to_uint p) =
                NilEmpty.string_of_uint (Pos.to_uint p))
      by (destruct (Pos.to_uint p); [contradiction|..]; reflexivity);
    try rewrite E.
  - rewrite (proj1 (parseInt_string_uint _ N)), (read_digits_start _ N).
    now rewrite Stdlib.Numbers.DecimalPos.Unsigned.of_to.
  - rewrite (proj2 (parseInt_string_uint _ N)), (read_digits_start _ N).
    now rewrite Stdlib.Numbers.DecimalPos.Unsigned.of_to.
Qed.

Lemma parseInt_number (n : Z) : parseInt (VJson (JNum n)) = Some n.
Proof. apply parseInt_string_Z_to_string. Qed.

Lemma parseInt_bigint (n : Z) : parseInt (VBigInt n) = Some n.
Proof. apply parseInt_string_Z_to_string. Qed.

Lemma client_stages (result : Raw.summary) :
  Ledger.stages (summary_of_result result) = map client_stage (Raw.stages result).
Proof. reflexivity. Qed.

(** X8. The callback of [find] matches by number: a ledger stage that came
    through [getBatchSummary] is of the kind of a store row whose
    [event_type] is the number [k] exactly when the contract's stage type is
    [k]; and a row whose [event_type] is [null] is of the kind of no stage,
    [parseInt] giving [NaN] for it. The integers are those a JavaScript
    number holds exactly. *)
Theorem same_kind_is_equality_of_stage_numbers :
  forall (row : Row.t) (stage : Raw.stage) (k : Z),
    safe_integer k ->
    safe_integer (Raw.stageType stage) ->
    (Row.event_type row = JNum k ->
     same_kind row (client_stage stage) = (Raw.stageType stage =? k)) /\
    (Row.event_type row = JNull ->
     same_kind row (client_stage stage) = false).
Proof.
  intros row stage k _ _. unfold same_kind, client_stage. cbn [Ledger.stageType].
  rewrite parseInt_bigint. split; intros ->.
  - now rewrite parseInt_number.
  - reflexivity.
Qed.

Lemma same_kind_is_equality_of_stage_numbers_witness :
  same_kind Sample2.first_row (client_stage (Raw.Stage 0 1701 Sample.hash12)) = true /\
  same_kind Sample2.first_row (client_stage (Raw.Stage 1 1701 Sample.hash12)) = false.
Proof.
  assert (S0 : safe_integer 0) by (unfold safe_integer; simpl; lia).
  assert (S1 : safe_integer 1) by (unfold safe_integer; simpl; lia).
  split.
  - exact (proj1 (same_kind_is_equality_of_stage_numbers
                    Sample2.first_row (Raw.Stage 0 1701 Sample.hash12) 0 S0 S0) eq_refl).
  - exact (proj1 (same_kind_is_equality_of_stage_numbers
                    Sample2.first_row (Raw.Stage 1 1701 Sample.hash12) 0 S0 S1) eq_refl).
Defined.

(** ** More on [processStage] *)

Lemma same_kind_client_stage (row : Row.t) (stage : Raw.stage) (k : Z) :
  Row.event_type row = JNum k ->
  same_kind row (client_stage stage) = (Raw.stageType stage =? k).
Proof.
  intro H. unfold same_kind, client_stage. cbn [Ledger.stageType].
  now rewrite H, parseInt_bigint, parseInt_number.
Qed.

Lemma find_map {A B : Type} (p : B -> bool) (f : A -> B) (l : list A) :
  find p (map f l) = option_map f (find (fun x => p (f x)) l).
Proof.
  induction l as [|x l IH]; simpl; [reflexivity|].
  destruct (p (f x)); [reflexivity|exact IH].
Qed.

Lemma find_ext {A : Type} (p q : A -> bool) (l : list A) :
  (forall x, p x = q x) -> find p l = find q l.
Proof.
  intro H. induction l as [|x l IH]; simpl; [reflexivity|]. now rewrite H, IH.
Qed.

Lemma find_decompose {A : Type} (p : A -> bool) (l : list A) (x : A) :
  find p l = Some x ->
  exists before after,
    l = (before ++ x :: after)%list /\ (forall y, In y before -> p y = false) /\ p x = true.
Proof.
  induction l as [|y l IH]; simpl; [discriminate|].
  destruct (p y) eqn:E.
  - intro H. injection H as ->. exists [], l. repeat split; [intros z []|exact E].
  - intro H. destruct (IH H) as [before [after [-> [Hb Hx]]]].
    exists (y :: before), after. repeat split; [|exact Hx].
    intros z [<-|Hz]; [exact E|now apply Hb].
Qed.

(** What [processStage] finds on a ledger list that came through
    [getBatchSummary], for a row whose [event_type] is the number [k]. *)
Lemma find_same_kind_client (row : Row.t) (k : Z) (stages : list Raw.stage) :
  Row.event_type row = JNum k ->
  find (same_kind row) (map client_stage stages) =
  option_map client_stage (find (fun s => Raw.stageType s =? k) stages).
Proof.
  intro H. rewrite find_map. f_equal. apply find_ext.
  intro s. now apply same_kind_client_stage.
Qed.

(** C10. What the on-chain check of a data-valid stage event looks at. Take a
    row whose [event_type] is the number [k], whose stored hash is the hash
    of its stored metadata, and a ledger whose stages are [before], then
    [first], then [after], where no stage of [before] has stage type [k] and
    [first] has. Then the on-chain data of the detail is the copy of [first],
    and [on_chain_verified] holds exactly when the metadata hash of [first]
    is the row's hash: the stage is picked by its stage type alone, neither
    its timestamp nor the stages after it matter, every other valid row of
    type [k] is compared with that same stage, and a row whose hash [first]
    does not hold is reported unverified even when a stage of [after] has
    type [k] and holds the row's hash. *)
Theorem processStage_compares_first_stage_of_kind :
  forall (result : Raw.summary) (before after : list Raw.stage) (first : Raw.stage)
         (row : Row.t) (k : Z),
    Raw.stages result = (before ++ first :: after)%list ->
    Row.event_type row = JNum k ->
    safe_integer k ->
    Forall (fun s => safe_integer (Raw.stageType s)) (Raw.stages result) ->
    Row.event_hash row = JStr (sha256_hex (JSON_render (Row.event_data row))) ->
    (forall s, In s before -> Raw.stageType s <> k) ->
    Raw.stageType first = k ->
    let onChainStages := Ledger.stages (summary_of_result result) in
    let copy := Safe.Stage (Some (JStr (Z_to_string (Raw.stageType first))))
                           (Some (JStr (Z_to_string (Raw.timestamp first))))
                           (Some (JStr (Raw.metadataHash first))) in
    (exists d,
        processStage onChainStages row = Return d /\
        Detail.data_integrity d = true /\
        Detail.on_chain_data d = Some copy /\
        (Detail.on_chain_verified d = true <->
         Row.event_hash row = JStr (Raw.metadataHash first)) /\
        Detail.verified d = Detail.on_chain_verified d) /\
    (forall (result' : Raw.summary) (after' : list Raw.stage),
        Raw.stages result' = (before ++ first :: after')%list ->
        processStage (Ledger.stages (summary_of_result result')) row =
        processStage onChainStages row) /\
    (forall row' : Row.t,
        Row.event_type row' = JNum k ->
        Row.event_hash row' = JStr (sha256_hex (JSON_render (Row.event_data row'))) ->
        exists d',
          processStage onChainStages row' = Return d' /\
          Detail.on_chain_data d' = Some copy /\
          (Detail.on_chain_verified d' = true <->
           Row.event_hash row' = JStr (Raw.metadataHash first))) /\
    (Row.event_hash row <> JStr (Raw.metadataHash first) ->
     (exists later,
         In later after /\ Raw.stageType later = k /\
         Row.event_hash row = JStr (Raw.metadataHash later)) ->
     exists d,
       processStage onChainStages row = Return d /\
       Detail.on_chain_verified d = false /\
       Detail.verified d = false).
Proof.
  intros result before after first row k Hl Hk _ _ Hv Hb Hf onChainStages copy.
  assert (F : forall a, find (fun s => Raw.stageType s =? k) (before ++ first :: a)%list
                        = Some first).
  { intro a. apply find_first_of_kind.
    - intros s Hs. apply Z.eqb_neq. now apply Hb.
    - now apply Z.eqb_eq. }
  assert (P : forall (r : Raw.summary) (a : list Raw.stage) (x : Row.t),
             Raw.stages r = (before ++ first :: a)%list ->
             Row.event_type x = JNum k ->
             Row.event_hash x = JStr (sha256_hex (JSON_render (Row.event_data x))) ->
             processStage (Ledger.stages (summary_of_result r)) x =
             Return (Detail.Make (Row.event_type x) (Row.event_data x) (Row.created_at x)
                       true
                       (strict_eq (VJson (JStr (Raw.metadataHash first)))
                                  (VJson (Row.event_hash x)))
                       (strict_eq (VJson (JStr (Raw.metadataHash first)))
                                  (VJson (Row.event_hash x)))
                       (Some copy))).
  { intros r a x Hr Hx Hxv.
    rewrite client_stages, (processStage_valid _ _ Hxv), (find_same_kind_client _ _ _ Hx).
    rewrite Hr, F. reflexivity. }
  assert (Q : forall x : Row.t,
             strict_eq (VJson (JStr (Raw.metadataHash first))) (VJson (Row.event_hash x))
               = true <->
             Row.event_hash x = JStr (Raw.metadataHash first))
    by (intro x; apply strict_eq_string_json).
  split; [|split; [|split]].
  - eexists. split; [exact (P result after row Hl Hk Hv)|].
    cbn [Detail.data_integrity Detail.on_chain_data Detail.on_chain_verified Detail.verified].
    split; [reflexivity|]. split; [reflexivity|]. split; [apply Q|reflexivity].
  - intros result' after' Hl'. unfold onChainStages.
    now rewrite (P result' after' row Hl' Hk Hv), (P result after row Hl Hk Hv).
  - intros row' Hk' Hv'. eexists. split; [exact (P result after row' Hl Hk' Hv')|].
    cbn [Detail.on_chain_data Detail.on_chain_verified]. split; [reflexivity|apply Q].
  - intros Hne _. eexists. split; [exact (P result after row Hl Hk Hv)|].
    cbn [Detail.on_chain_verified Detail.verified].
    assert (E : strict_eq (VJson (JStr (Raw.metadataHash first)))
                          (VJson (Row.event_hash row)) = false).
    { destruct (strict_eq _ _) eqn:E; [|reflexivity]. apply Q in E. contradiction. }
    rewrite E. split; reflexivity.
Qed.

Lemma processStage_compares_first_stage_of_kind_witness :
  exists d,
    processStage (Ledger.stages (summary_of_result Sample2.three_stages))
                 Sample.second_row = Return d /\
    Detail.on_chain_data d =
      Some (Safe.Stage (Some (JStr "0")) (Some (JStr "1701")) (Some (JStr Sample.hash12))) /\
    Detail.on_chain_verified d = false /\
    Detail.verified d = false.
Proof.
  assert (S0 : safe_integer 0) by (unfold safe_integer; simpl; lia).
  assert (S1 : safe_integer 1) by (unfold safe_integer; simpl; lia).
  assert (SL : Forall (fun s => safe_integer (Raw.stageType s))
                      (Raw.stages Sample2.three_stages))
    by (repeat constructor; assumption).
  assert (Hv : Row.event_hash Sample.second_row =
               JStr (sha256_hex (JSON_render (Row.event_data Sample.second_row))))
    by (vm_compute; reflexivity).
  assert (Hb : forall s, In s [Raw.Stage 1 1699 Sample.hash15] -> Raw.stageType s <> 0)
    by (intros s [<-|[]]; discriminate).
  assert (Hne : Row.event_hash Sample.second_row <> JStr Sample.hash12)
    by (intro H; vm_compute in H; discriminate H).
  assert (Hl : exists later,
             In later [Raw.Stage 0 1703 Sample.hash15] /\ Raw.stageType later = 0 /\
             Row.event_hash Sample.second_row = JStr (Raw.metadataHash later))
    by (exists (Raw.Stage 0 1703 Sample.hash15); repeat split; now left).
  destruct (processStage_compares_first_stage_of_kind
              Sample2.three_stages [Raw.Stage 1 1699 Sample.hash15]
              [Raw.Stage 0 1703 Sample.hash15] (Raw.Stage 0 1701 Sample.hash12)
              Sample.second_row 0 eq_refl eq_refl S0 SL Hv Hb eq_refl)
    as [[d [Hd [_ [Hc _]]]] [_ [_ Hlast]]].
  destruct (Hlast Hne Hl) as [d' [Hd' [H1 H2]]].
  rewrite Hd in Hd'. injection Hd' as <-.
  exists d. split; [exact Hd|]. split; [exact Hc|]. split; [exact H1|exact H2].
Defined.

(** X9. When a stage event counts as verified. For a row whose [event_type]
    is the number [k] and the ledger stages that [getBatchSummary] returned,
    the detail has [verified = true] exactly when the stored hash is the hash
    recomputed from the stored metadata and the first ledger stage of type
    [k] holds that same hash. *)
Theorem processStage_verified_iff :
  forall (result : Raw.summary) (row : Row.t) (k : Z) (d : Detail.t),
    Row.event_type row = JNum k ->
    safe_integer k ->
    Forall (fun s => safe_integer (Raw.stageType s)) (Raw.stages result) ->
    processStage (Ledger.stages (summary_of_result result)) row = Return d ->
    (Detail.verified d = true <->
     Row.event_hash row = JStr (sha256_hex (JSON_render (Row.event_data row))) /\
     exists before first after,
       Raw.stages result = (before ++ first :: after)%list /\
       (forall s, In s before -> Raw.stageType s <> k) /\
       Raw.stageType first = k /\
       Row.event_hash row = JStr (Raw.metadataHash first)).
Proof.
  intros result row k d Hk _ _ Hd. rewrite client_stages in Hd.
  destruct (strict_eq (VJson (JStr (sha256_hex (JSON_render (Row.event_data row)))))
                      (VJson (Row.event_hash row))) eqn:E.
  - apply strict_eq_string_json in E.
    rewrite (processStage_valid _ _ E), (find_same_kind_client _ _ _ Hk) in Hd.
    cbv zeta in Hd. injection Hd as <-. cbn [Detail.verified].
    destruct (find (fun s => Raw.stageType s =? k) (Raw.stages result)) as [first|] eqn:F;
      cbn [option_map].
    + unfold safe_copy, client_stage.
      cbn [Ledger.metadataHash Safe.metadataHash json_copy_bigint_safe read_property].
      rewrite strict_eq_string_json.
      destruct (find_decompose _ _ _ F) as [before [after [L [Hb Hf]]]].
      split.
      * intro H. split; [exact E|]. exists before, first, after.
        repeat split; try assumption.
        -- intros s Hs Heq. specialize (Hb s Hs). apply Z.eqb_neq in Hb. contradiction.
        -- now apply Z.eqb_eq.
      * intros [_ [b' [f' [a' [L' [Hb' [Hf' Hh]]]]]]].
        assert (F' : find (fun s => Raw.stageType s =? k) (Raw.stages result) = Some f').
        { rewrite L'. apply find_first_of_kind.
          - intros y Hy. apply Z.eqb_neq. now apply Hb'.
          - now apply Z.eqb_eq. }
        rewrite F in F'. injection F' as ->. exact Hh.
    + split; [discriminate|].
      intros [_ [b' [f' [a' [L' [Hb' [Hf' Hh]]]]]]].
      assert (Hin : In f' (Raw.stages result))
        by (rewrite L'; apply in_or_app; right; now left).
      pose proof (find_none _ _ F f' Hin) as N. cbv beta in N.
      apply Z.eqb_neq in N. contradiction.
  - assert (Hne : Row.event_hash row <>
                  JStr (sha256_hex (JSON_render (Row.event_data row)))).
    { intro H. apply strict_eq_string_json in H. rewrite H in E. discriminate. }
    rewrite (processStage_invalid _ _ Hne) in Hd. injection Hd as <-.
    cbn [Detail.verified]. split; [discriminate|]. intros [H _]. contradiction.
Qed.

Lemma processStage_verified_iff_witness :
  exists d,
    processStage
      (Ledger.stages (summary_of_result
         (Raw.Summary "herb" 1 [Raw.Stage 0 1701 Sample.hash12])))
      Sample2.first_row = Return d /\
    (Detail.verified d = true <->
     Row.event_hash Sample2.first_row =
       JStr (sha256_hex (JSON_render (Row.event_data Sample2.first_row))) /\
     exists before first after,
       [Raw.Stage 0 1701 Sample.hash12] = (before ++ first :: after)%list /\
       (forall s, In s before -> Raw.stageType s <> 0) /\
       Raw.stageType first = 0 /\
       Row.event_hash Sample2.first_row = JStr (Raw.metadataHash first)).
Proof.
  destruct (processStage_total
              (Ledger.stages (summary_of_result
                 (Raw.Summary "herb" 1 [Raw.Stage 0 1701 Sample.hash12])))
              Sample2.first_row) as [d Hd].
  exists d. split; [exact Hd|].
  assert (S0 : safe_integer 0) by (unfold safe_integer; simpl; lia).
  assert (SL : Forall (fun s => safe_integer (Raw.stageType s))
                      [Raw.Stage 0 1701 Sample.hash12])
    by (constructor; [exact S0|constructor]).
  exact (processStage_verified_iff
           (Raw.Summary "herb" 1 [Raw.Stage 0 1701 Sample.hash12])
           Sample2.first_row 0 d eq_refl S0 SL Hd).
Defined.

(** X10. What every detail satisfies: the stage type, metadata and timestamp
    are those of the row; [verified] is [on_chain_verified]; a detail that is
    verified on chain has passed the data-integrity check and shows the copy
    of a ledger stage of the row's kind; a detail that failed the
    data-integrity check shows no on-chain data; and [data_integrity] holds
    exactly when the stored hash is the recomputed one. *)
Theorem processStage_detail_invariants :
  forall (onChainStages : list Ledger.stage) (row : Row.t) (d : Detail.t),
    processStage onChainStages row = Return d ->
    Detail.stage_type d = Row.event_type row /\
    Detail.metadata d = Row.event_data row /\
    Detail.timestamp d = Row.created_at row /\
    Detail.verified d = Detail.on_chain_verified d /\
    (Detail.on_chain_verified d = true ->
     Detail.data_integrity d = true /\
     exists stage,
       In stage onChainStages /\ same_kind row stage = true /\
       Detail.on_chain_data d = Some (safe_copy stage)) /\
    (Detail.data_integrity d = false -> Detail.on_chain_data d = None) /\
    (Detail.data_integrity d = true <->
     Row.event_hash row = JStr (sha256_hex (JSON_render (Row.event_data row)))).
Proof.
  intros l row d Hd.
  destruct (strict_eq (VJson (JStr (sha256_hex (JSON_render (Row.event_data row)))))
                      (VJson (Row.event_hash row))) eqn:E.
  - apply strict_eq_string_json in E.
    rewrite (processStage_valid _ _ E) in Hd. cbv zeta in Hd. injection Hd as <-.
    cbn [Detail.stage_type Detail.metadata Detail.timestamp Detail.verified
         Detail.on_chain_verified Detail.data_integrity Detail.on_chain_data].
    split; [reflexivity|]. split; [reflexivity|]. split; [reflexivity|].
    split; [reflexivity|]. split; [|split; [discriminate|split; auto]].
    destruct (find (same_kind row) l) as [stage|] eqn:F; [|discriminate].
    intros _. split; [reflexivity|].
    exists stage. destruct (find_some _ _ F) as [Hin Hk]. now repeat split.
  - assert (Hne : Row.event_hash row <>
                  JStr (sha256_hex (JSON_render (Row.event_data row)))).
    { intro H. apply strict_eq_string_json in H. rewrite H in E. discriminate. }
    rewrite (processStage_invalid _ _ Hne) in Hd. injection Hd as <-.
    cbn [Detail.stage_type Detail.metadata Detail.timestamp Detail.verified
         Detail.on_chain_verified Detail.data_integrity Detail.on_chain_data].
    split; [reflexivity|]. split; [reflexivity|]. split; [reflexivity|].
    split; [reflexivity|]. split; [discriminate|]. split; [reflexivity|].
    split; [discriminate|intro H; contradiction].
Qed.

Lemma processStage_detail_invariants_witness :
  exists d,
    processStage [Sample.ledger_stage 0 Sample.hash12] Sample2.first_row = Return d /\
    Detail.metadata d = Sample.moisture 12 /\
    Detail.verified d = Detail.on_chain_verified d.
Proof.
  destruct (processStage_total [Sample.ledger_stage 0 Sample.hash12] Sample2.first_row)
    as [d Hd].
  exists d. split; [exact Hd|].
  destruct (processStage_detail_invariants _ _ _ Hd) as [_ [H2 [_ [H4 _]]]].
  split; [exact H2|exact H4].
Defined.

(** ** Writing a stage event and checking it again *)

Lemma falsy_json_cases (m : json) :
  falsy (VJson m) = true -> m = JNull \/ m = JBool false \/ m = JNum 0 \/ m = JStr "".
Proof.
  destruct m as [|b|n|s|xs|ps]; simpl; intro H; try discriminate.
  - now left.
  - right; left. destruct b; [discriminate|reflexivity].
  - right; right; left. apply Z.eqb_eq in H. now subst.
  - right; right; right. apply String.eqb_eq in H. now subst.
Qed.

(** X6. A row that holds what RecordStage hands to the store passes the
    data-integrity check exactly when the request's metadata is truthy: for
    [null], [false], [0] and the empty string the hash is that of the
    metadata while the stored [event_data] is the empty object, so the check
    fails on every later read. *)
Theorem recorded_row_integrity :
  forall (req : AddStageBody) (m : json) (batchHash : string)
         (onChainStages : list Ledger.stage) (row : Row.t),
    metadata req = VJson m ->
    createBatchHash (metadata req) = Return batchHash ->
    NewRow.event_data (new_row req batchHash) = VJson (Row.event_data row) ->
    Row.event_hash row = JStr (NewRow.event_hash (new_row req batchHash)) ->
    exists d,
      processStage onChainStages row = Return d /\
      Detail.data_integrity d = negb (falsy (VJson m)) /\
      (falsy (VJson m) = true -> Row.event_data row = JObj [] /\ Detail.verified d = false).
Proof.
  intros req m h l row Hm Hh Hdata Hhash.
  rewrite Hm, createBatchHash_json in Hh. injection Hh as <-.
  unfold new_row in Hdata, Hhash. cbn [NewRow.event_data NewRow.event_hash] in Hdata, Hhash.
  rewrite Hm in Hdata. unfold js_or in Hdata.
  destruct (falsy (VJson m)) eqn:F.
  - injection Hdata as Hdata.
    assert (Hne : Row.event_hash row <>
                  JStr (sha256_hex (JSON_render (Row.event_data row)))).
    { rewrite Hhash, <- Hdata. intro E. injection E as E.
      destruct (falsy_json_cases m F) as [ -> | [ -> | [ -> | -> ] ] ];
        vm_compute in E; discriminate E. }
    exists (Detail.Make (Row.event_type row) (Row.event_data row) (Row.created_at row)
              false false false None).
    split; [now apply processStage_invalid|]. split; [reflexivity|].
    intros _. split; [now rewrite <- Hdata|reflexivity].
  - injection Hdata as Hdata. subst m.
    eexists. split; [apply processStage_valid; exact Hhash|].
    split; [reflexivity|discriminate].
Qed.

Lemma recorded_row_integrity_witness :
  exists d,
    processStage [] (Row.Make (JStr "42") (JNum 1) (JObj []) (JStr (sha256_hex "null"))
                              (JNum 1700)) = Return d /\
    Detail.data_integrity d = false.
Proof.
  destruct (recorded_row_integrity Sample2.null_metadata JNull (sha256_hex "null") []
              (Row.Make (JStr "42") (JNum 1) (JObj []) (JStr (sha256_hex "null")) (JNum 1700))
              eq_refl eq_refl eq_refl eq_refl) as [d [H1 [H2 _]]].
  exists d. split; [exact H1|exact H2].
Defined.

(** ** The shape of a digest *)

Lemma length_string_of_list_ascii (l : list ascii) :
  String.length (string_of_list_ascii l) = List.length l.
Proof. induction l; simpl; congruence. Qed.

Lemma be_bytes_length (n : nat) (x : Z) : List.length (SHA256.be_bytes n x) = n.
Proof. induction n; simpl; congruence. Qed.

Lemma be_bytes_range (n : nat) (x : Z) :
  Forall (fun b => 0 <= b < 256) (SHA256.be_bytes n x).
Proof.
  induction n; simpl; constructor; [apply Z.mod_pos_bound; lia|assumption].
Qed.

Lemma compress_length (h block : list Z) :
  List.length h = 8%nat -> List.length (SHA256.compress h block) = 8%nat.
Proof.
  intro H. unfold SHA256.compress.
  rewrite length_map, length_combine, H. reflexivity.
Qed.

Lemma fold_compress_length (bs : list (list Z)) :
  forall h, List.length h = 8%nat ->
            List.length (fold_left SHA256.compress bs h) = 8%nat.
Proof.
  induction bs as [|b bs IH]; simpl; intros h H; [exact H|].
  apply IH. now apply compress_length.
Qed.

Lemma flat_map_be_bytes (ws : list Z) :
  List.length (flat_map (SHA256.be_bytes 4) ws) = (4 * List.length ws)%nat /\
  Forall (fun b => 0 <= b < 256) (flat_map (SHA256.be_bytes 4) ws).
Proof.
  induction ws as [|x ws [L F]]; [split; [reflexivity|constructor]|].
  cbn [flat_map]. split.
  - rewrite length_app, be_bytes_length, L. simpl. lia.
  - apply Forall_app. split; [apply be_bytes_range|exact F].
Qed.

Lemma hex_digit_lower (d : Z) : 0 <= d < 16 -> is_lower_hex (hex_digit d) = true.
Proof.
  intro H.
  assert (C : d = 0 \/ d = 1 \/ d = 2 \/ d = 3 \/ d = 4 \/ d = 5 \/ d = 6 \/ d = 7 \/
              d = 8 \/ d = 9 \/ d = 10 \/ d = 11 \/ d = 12 \/ d = 13 \/ d = 14 \/ d = 15)
    by lia.
  repeat (destruct C as [->|C]; [reflexivity|]). subst. reflexivity.
Qed.

Lemma hex_of_bytes_format (bs : list Z) :
  Forall (fun b => 0 <= b < 256) bs ->
  String.length (SHA256.hex_of_bytes bs) = (2 * List.length bs)%nat /\
  forallb is_lower_hex (list_ascii_of_string (SHA256.hex_of_bytes bs)) = true.
Proof.
  intro F. unfold SHA256.hex_of_bytes.
  rewrite length_string_of_list_ascii, list_ascii_of_string_of_list_ascii.
  induction F as [|b bs Hb F [L H]]; [split; reflexivity|].
  cbn [flat_map List.length app forallb]. split; [simpl in *; lia|].
  rewrite H, !hex_digit_lower; [reflexivity| |].
  - apply Z.mod_pos_bound. lia.
  - split; [apply Z.div_pos; lia|apply Z.div_lt_upper_bound; lia].
Qed.

Lemma sha256_hex_format (s : string) :
  String.length (sha256_hex s) = 64%nat /\
  forallb is_lower_hex (list_ascii_of_string (sha256_hex s)) = true.
Proof.
  unfold sha256_hex, SHA256.digest.
  set (ws := fold_left SHA256.compress _ SHA256.H_init).
  assert (L : List.length ws = 8%nat) by (apply fold_compress_length; reflexivity).
  destruct (flat_map_be_bytes ws) as [Lb Fb].
  destruct (hex_of_bytes_format _ Fb) as [Lh Fh].
  split; [rewrite Lh, Lb, L; reflexivity|exact Fh].
Qed.

(** X7. Whatever metadata it is given, a hash that [createBatchHash] returns
    is sixty-four characters long, each of them one of [0-9a-f]. *)
Theorem createBatchHash_digest_format :
  forall (v : value) (h : string),
    createBatchHash v = Return h ->
    String.length h = 64%nat /\
    forallb is_lower_hex (list_ascii_of_string h) = true.
Proof.
  intros v h H. unfold createBatchHash in H.
  destruct (JSON_stringify v) as [[s|]|e]; try discriminate.
  cbn [hash_update_digest] in H. injection H as <-. apply sha256_hex_format.
Qed.

Lemma createBatchHash_digest_format_witness :
  String.length Sample.hash12 = 64%nat /\
  forallb is_lower_hex (list_ascii_of_string Sample.hash12) = true.
Proof.
  exact (createBatchHash_digest_format (VJson (Sample.moisture 12)) Sample.hash12 eq_refl).
Defined.

(** ** The summary *)

Lemma filter_length_le {A : Type} (p : A -> bool) (l : list A) :
  (List.length (filter p l) <= List.length l)%nat.
Proof. induction l as [|x l IH]; simpl; [lia|]. destruct (p x); simpl; lia. Qed.

Lemma forallb_filter_length {A : Type} (p : A -> bool) (l : list A) :
  forallb p l = true <-> List.length (filter p l) = List.length l.
Proof.
  induction l as [|x l IH]; simpl; [tauto|].
  pose proof (filter_length_le p l). destruct (p x); simpl.
  - rewrite IH. lia.
  - split; [discriminate|lia].
Qed.

Lemma existsb_filter_length {A : Type} (p : A -> bool) (l : list A) :
  existsb p l = true <-> (0 < List.length (filter p l))%nat.
Proof.
  induction l as [|x l IH]; simpl; [split; [discriminate|lia]|].
  destruct (p x); simpl; [split; [lia|reflexivity]|exact IH].
Qed.

(** X12. The three fields of the summary agree: [verified_stages] never
    exceeds [total_stages]; the status is [FULLY_VERIFIED] exactly when there
    is a stage and the two counts are equal, [NOT_VERIFIED] exactly when
    [verified_stages] is zero, and [PARTIALLY_VERIFIED] exactly when
    [verified_stages] lies strictly between zero and [total_stages]. *)
Theorem summary_counts_and_status :
  forall (ds : list Detail.t),
    total_stages (summary_of ds) = List.length ds /\
    (verified_stages (summary_of ds) <= total_stages (summary_of ds))%nat /\
    (verification_status_of (summary_of ds) = FULLY_VERIFIED <->
     (0 < total_stages (summary_of ds))%nat /\
     verified_stages (summary_of ds) = total_stages (summary_of ds)) /\
    (verification_status_of (summary_of ds) = NOT_VERIFIED <->
     verified_stages (summary_of ds) = 0%nat) /\
    (verification_status_of (summary_of ds) = PARTIALLY_VERIFIED <->
     (0 < verified_stages (summary_of ds) < total_stages (summary_of ds))%nat).
Proof.
  intro ds. unfold summary_of.
  cbn [total_stages verified_stages verification_status_of].
  pose proof (filter_length_le Detail.verified ds) as Hle.
  pose proof (forallb_filter_length Detail.verified ds) as Hall.
  pose proof (existsb_filter_length Detail.verified ds) as Hex.
  split; [reflexivity|]. split; [exact Hle|].
  destruct (forallb Detail.verified ds) eqn:Fa;
    destruct (existsb Detail.verified ds) eqn:Ex;
    destruct (0 <? Z.of_nat (List.length ds)) eqn:Pos;
    cbn [andb];
    try apply Z.ltb_lt in Pos; try apply Z.ltb_ge in Pos;
    assert (Ha := proj1 Hall); assert (Ha' := proj2 Hall);
    assert (He := proj1 Hex); assert (He' := proj2 Hex);
    repeat split; intros; try discriminate; try lia;
    try (exfalso; (specialize (Ha eq_refl) || idtac); (specialize (He eq_refl) || idtac); lia).
  all: exfalso.
  all: try (assert (X : false = true) by (apply Ha'; lia); discriminate).
  all: try (assert (X : false = true) by (apply He'; lia); discriminate).
Qed.

(** ** More on [GetBatchStages] *)

Lemma map_all_Forall2 {A B : Type} (f : A -> outcome B) (xs : list A) :
  forall bs, map_all f xs = Return bs -> Forall2 (fun x b => f x = Return b) xs bs.
Proof.
  induction xs as [|x xs IH]; simpl; intros bs H.
  - injection H as <-. constructor.
  - destruct (f x) as [b|] eqn:E; [|discriminate].
    destruct (map_all f xs) as [bs0|]; [|discriminate].
    injection H as <-. constructor; [exact E|now apply IH].
Qed.

Lemma processStage_fields (l : list Ledger.stage) (row : Row.t) (d : Detail.t) :
  processStage l row = Return d ->
  Detail.stage_type d = Row.event_type row /\
  Detail.metadata d = Row.event_data row /\
  Detail.timestamp d = Row.created_at row.
Proof.
  unfold processStage. rewrite createBatchHash_json.
  destruct (strict_eq _ _); [destruct (find _ _)|]; cbv zeta; intro H;
    injection H as <-; repeat split.
Qed.

Lemma details_follow_rows (l : list Ledger.stage) (rows : list Row.t) (ds : list Detail.t) :
  Forall2 (fun row d => processStage l row = Return d) rows ds ->
  map Detail.stage_type ds = map Row.event_type rows /\
  map Detail.metadata ds = map Row.event_data rows /\
  map Detail.timestamp ds = map Row.created_at rows.
Proof.
  induction 1 as [|row d rows ds Hd F [I1 [I2 I3]]]; [repeat split|].
  destruct (processStage_fields _ _ _ Hd) as [H1 [H2 H3]].
  cbn [map]. now rewrite H1, H2, H3, I1, I2, I3.
Qed.

Lemma responses_app (t u : list event) :
  responses (t ++ u)%list = (responses t ++ responses u)%list.
Proof.
  induction t as [|e t IH]; [reflexivity|]. destruct e; simpl; now rewrite IH.
Qed.

Section MoreBatchStages.
Context {W : Type} {SV : Services W}.

Lemma ledger_fetch_quiet (w : W) (id : value) :
  responses (snd (ledger_fetch w id)) = [] /\
  existsb is_store_write (snd (ledger_fetch w id)) = false /\
  existsb is_ledger_write (snd (ledger_fetch w id)) = false.
Proof.
  unfold ledger_fetch. destruct (contract_getBatchSummary w (parseInt id)); repeat split.
Qed.

(** X13. The details of a 200 answer follow the rows the store returned: one
    detail per row, in the same order, each carrying the stage type, the
    metadata and the creation time of its row; [total_stages] is the number
    of rows. *)
Theorem get_batch_stages_details_follow_rows :
  forall (w : W) (id : value),
    falsy id = false ->
    error (stage_events_select w id) = None ->
    exists ds,
      response_of (trace (snd (run (get_batch_stages id) w))) =
        Some (200, BatchStages id id ds (summary_of ds)) /\
      map Detail.stage_type ds = map Row.event_type (data (stage_events_select w id)) /\
      map Detail.metadata ds = map Row.event_data (data (stage_events_select w id)) /\
      map Detail.timestamp ds = map Row.created_at (data (stage_events_select w id)) /\
      total_stages (summary_of ds) = List.length (data (stage_events_select w id)).
Proof.
  intros w id Hid Herr.
  destruct (get_batch_stages_run w id Hid Herr) as [ds [E R]].
  exists ds. rewrite R. cbn [snd trace]. split.
  { rewrite app_assoc. apply response_of_last, ledger_fetch_log. }
  destruct (details_follow_rows _ _ _ (map_all_Forall2 _ _ _ E)) as [H1 [H2 H3]].
  cbn [summary_of total_stages]. rewrite (map_all_length _ _ _ E). repeat split; assumption.
Qed.

Lemma get_batch_stages_store_error_aux (w : W) (id : value) (e : exn) :
  falsy id = false ->
  error (stage_events_select w id) = Some e ->
  run (get_batch_stages id) w =
    (Return tt,
     State w [StoreSelect id;
              ConsoleError "Error fetching batch stages:" e;
              Respond 500 (ErrorDetailsBody (exn_message e)
                             "Failed to fetch batch stages")]).
Proof.
  intros Hid Herr.
  unfold run, get_batch_stages, try_catch, bind, call_select, emit, throw.
  rewrite Hid. cbn. rewrite Herr. reflexivity.
Qed.

(** X14. When the store answers the query with an error, the caller gets a
    500 with the message of that error and the fixed [details] text, the
    error is written to the console, and the ledger is not consulted. *)
Theorem get_batch_stages_store_error :
  forall (w : W) (id : value) (e : exn),
    falsy id = false ->
    error (stage_events_select w id) = Some e ->
    run (get_batch_stages id) w =
      (Return tt,
       State w [StoreSelect id;
                ConsoleError "Error fetching batch stages:" e;
                Respond 500 (ErrorDetailsBody (exn_message e)
                               "Failed to fetch batch stages")]).
Proof.
  intros w id e Hid Herr. now apply get_batch_stages_store_error_aux.
Qed.

(** X15. GetBatchStages only reads. On every request it returns normally,
    leaves the world as it found it, answers exactly once, with 200, 400 or
    500, and issues neither a store insert nor a ledger write. *)
Theorem get_batch_stages_reads_only :
  forall (w : W) (id : value),
    fst (run (get_batch_stages id) w) = Return tt /\
    world (snd (run (get_batch_stages id) w)) = w /\
    (exists code b,
        responses (trace (snd (run (get_batch_stages id) w))) = [(code, b)] /\
        (code = 200 \/ code = 400 \/ code = 500)) /\
    existsb is_store_write (trace (snd (run (get_batch_stages id) w))) = false /\
    existsb is_ledger_write (trace (snd (run (get_batch_stages id) w))) = false.
Proof.
  intros w id. destruct (falsy id) eqn:Hid.
  - unfold run, get_batch_stages, try_catch. rewrite Hid. cbn.
    repeat split. exists 400, (ErrorBody "formatted_batch_id is required"). auto.
  - destruct (error (stage_events_select w id)) as [e|] eqn:Herr.
    + rewrite (get_batch_stages_store_error_aux w id e Hid Herr). cbn.
      repeat split. eexists _, _. split; [reflexivity|auto].
    + destruct (get_batch_stages_run w id Hid Herr) as [ds [_ R]]. rewrite R.
      cbn [fst snd world trace].
      destruct (ledger_fetch_quiet w id) as [Q1 [Q2 Q3]].
      repeat split.
      * eexists _, _. cbn [app responses]. rewrite responses_app, Q1.
        split; [reflexivity|auto].
      * cbn [app existsb is_store_write]. rewrite existsb_app, Q2. reflexivity.
      * cbn [app existsb is_ledger_write]. rewrite existsb_app, Q3. reflexivity.
Qed.

End MoreBatchStages.

(** ** More on [RecordStage] *)

Section MoreRecordStage.
Context {W : Type} {SV : Services W}.

(** X2. For a request whose stage type passes the first guard, the answer
    is the 400 that names both fields exactly when the batch id is missing or
    empty, and then nothing else happens; the [stage_type == undefined] half
    of that second guard never decides, since a stage type that passed the
    first guard is not [undefined]. *)
Theorem add_stage_event_batch_id_required :
  forall (w : W) (req : AddStageBody),
    loose_eq_undefined (get_property event_stages (stage_type req)) = false ->
    loose_eq_undefined (stage_type req) = false /\
    (falsy (formatted_batch_id req) = true ->
     run (add_stage_event req) w =
       (Return tt,
        State w [Respond 400 (ErrorBody "batch_id and stage_type are required")])) /\
    (falsy (formatted_batch_id req) = false ->
     forall b, response_of (trace (snd (run (add_stage_event req) w))) <> Some (400, b)).
Proof.
  intros w req Ht. split; [now apply accepted_stage_type_defined|]. split.
  - intro Hid. unfold run, add_stage_event, try_catch. rewrite Ht, Hid. reflexivity.
  - intros Hid b.
    destruct (createBatchHash (metadata req)) as [h|e] eqn:Hh.
    2:{ rewrite (add_stage_event_hash_failure w req e Ht Hid Hh). cbn. discriminate. }
    destruct (stage_events_insert w (new_row req h)) as [w1 reply] eqn:Hins.
    destruct (error reply) as [e|] eqn:Herr.
    + unfold run, add_stage_event, try_catch, bind, lift, call_insert, bind, emit, throw,
        console_error, res_json.
      rewrite Ht, Hid, (accepted_stage_type_defined _ Ht), Hh.
      cbn -[new_row]. rewrite Hins. cbn -[new_row]. rewrite Herr. cbn. discriminate.
    + rewrite (add_stage_event_after_insert w w1 req h reply Ht Hid Hh Hins Herr). cbv zeta.
      destruct (contract_addStage w1 _ _ _) as [[w2 receipt]|e]; cbn; discriminate.
Qed.

(** X3. When the store answers the insert with an error, the caller gets a
    500 with the message of that error, the error is written to the console,
    no 201 is sent and the ledger is not called. *)
Theorem add_stage_event_store_error :
  forall (w w1 : W) (req : AddStageBody) (batchHash : string) (reply : DbReply) (e : exn),
    loose_eq_undefined (get_property event_stages (stage_type req)) = false ->
    falsy (formatted_batch_id req) = false ->
    createBatchHash (metadata req) = Return batchHash ->
    stage_events_insert w (new_row req batchHash) = (w1, reply) ->
    error reply = Some e ->
    run (add_stage_event req) w =
    (Return tt,
     State w1 [StoreInsert (new_row req batchHash);
               ConsoleError "Error recording stage event:" e;
               Respond 500 (ErrorBody (exn_message e))]).
Proof.
  intros w w1 req h reply e Ht Hid Hh Hins Herr.
  unfold run, add_stage_event, try_catch, bind, lift, call_insert, bind, emit, throw,
    console_error, res_json.
  rewrite Ht, Hid, (accepted_stage_type_defined _ Ht), Hh.
  cbn -[new_row]. rewrite Hins. cbn -[new_row]. rewrite Herr. reflexivity.
Qed.

(** X4. When the insert and the ledger call both succeed, the handler
    returns normally after four steps: the insert, the 201, the ledger call
    and a console line with the transaction hash and stage index. The hash
    stored in the row, the hash returned to the caller and the hash sent to
    the ledger are the same value, and the stage type sent to the ledger is
    the [event_type] of the stored row. *)
Theorem add_stage_event_mirrors_row :
  forall (w w1 w2 : W) (req : AddStageBody) (batchHash : string) (reply : DbReply)
         (receipt : Raw.receipt),
    loose_eq_undefined (get_property event_stages (stage_type req)) = false ->
    falsy (formatted_batch_id req) = false ->
    createBatchHash (metadata req) = Return batchHash ->
    stage_events_insert w (new_row req batchHash) = (w1, reply) ->
    error reply = None ->
    contract_addStage w1 (formatted_batch_id req)
      (get_property event_stages (stage_type req)) batchHash = Return (w2, receipt) ->
    run (add_stage_event req) w =
    (Return tt,
     State w2 [StoreInsert (new_row req batchHash);
               Respond 201 (StageRecorded "Stage event recorded successfully"
                              (nth_error (data reply) 0)
                              (NewRow.event_hash (new_row req batchHash)));
               LedgerAddStage (NewRow.batch_id (new_row req batchHash))
                 (NewRow.event_type (new_row req batchHash))
                 (NewRow.event_hash (new_row req batchHash));
               ConsoleLog
                 (Ledger.Tx (VJson (JStr (Raw.hash receipt)))
                    match Raw.stageIndex receipt with
                    | Some i => VJson (JStr (Z_to_string i))
                    | None => VUndefined
                    end)]).
Proof.
  intros w w1 w2 req h reply receipt Ht Hid Hh Hins Herr Hl.
  rewrite (add_stage_event_after_insert w w1 req h reply Ht Hid Hh Hins Herr).
  cbv zeta. rewrite Hl. reflexivity.
Qed.

(** X5. On every request RecordStage answers exactly once, with 201, 400 or
    500. When the ledger is called, the trace is the insert, then the 201,
    then the ledger call, then one console line: the transaction, when the
    contract call succeeded on the world the insert left, the handler then
    ending normally in the world the contract left; or the error of the
    contract call, when it failed, the handler then ending with the error of
    the refused second response, in the world the insert left. When the
    ledger is not called the handler ends normally. *)
Theorem add_stage_event_answers_once :
  forall (w : W) (req : AddStageBody),
    (exists code b,
        responses (trace (snd (run (add_stage_event req) w))) = [(code, b)] /\
        (code = 201 \/ code = 400 \/ code = 500)) /\
    (existsb is_ledger_write (trace (snd (run (add_stage_event req) w))) = true ->
     exists row created batchId stageType metadataHash last,
       trace (snd (run (add_stage_event req) w)) =
         [StoreInsert row;
          Respond 201 created;
          LedgerAddStage batchId stageType metadataHash;
          last] /\
       ((exists w2 receipt tx,
            contract_addStage (fst (stage_events_insert w row))
              batchId stageType metadataHash = Return (w2, receipt) /\
            last = ConsoleLog tx /\
            Ledger.txHash tx = VJson (JStr (Raw.hash receipt)) /\
            run (add_stage_event req) w =
              (Return tt, State w2 (trace (snd (run (add_stage_event req) w))))) \/
        (exists e,
            contract_addStage (fst (stage_events_insert w row))
              batchId stageType metadataHash = Throw e /\
            last = ConsoleError "Error recording stage event:" e /\
            run (add_stage_event req) w =
              (Throw headers_sent,
               State (fst (stage_events_insert w row))
                     (trace (snd (run (add_stage_event req) w))))))) /\
    (existsb is_ledger_write (trace (snd (run (add_stage_event req) w))) = false ->
     fst (run (add_stage_event req) w) = Return tt).
Proof.
  intros w req.
  destruct (loose_eq_undefined (get_property event_stages (stage_type req))) eqn:Ht.
  { rewrite (add_stage_event_unknown_stage_type w req Ht). cbn.
    split; [eexists _, _; split; [reflexivity|auto]|]. split; [discriminate|reflexivity]. }
  destruct (falsy (formatted_batch_id req)) eqn:Hid.
  { unfold run, add_stage_event, try_catch. rewrite Ht, Hid. cbn.
    split; [eexists _, _; split; [reflexivity|auto]|]. split; [discriminate|reflexivity]. }
  destruct (createBatchHash (metadata req)) as [h|e] eqn:Hh.
  2:{ rewrite (add_stage_event_hash_failure w req e Ht Hid Hh). cbn.
      split; [eexists _, _; split; [reflexivity|auto]|].
      split; [discriminate|reflexivity]. }
  destruct (stage_events_insert w (new_row req h)) as [w1 reply] eqn:Hins.
  destruct (error reply) as [e|] eqn:Herr.
  { unfold run, add_stage_event, try_catch, bind, lift, call_insert, bind, emit, throw,
      console_error, res_json.
    rewrite Ht, Hid, (accepted_stage_type_defined _ Ht), Hh.
    cbn -[new_row]. rewrite Hins. cbn -[new_row]. rewrite Herr. cbn.
    split; [eexists _, _; split; [reflexivity|auto]|].
    split; [discriminate|reflexivity]. }
  rewrite (add_stage_event_after_insert w w1 req h reply Ht Hid Hh Hins Herr). cbv zeta.
  destruct (contract_addStage w1 _ _ _) as [[w2 receipt]|e] eqn:Hl; cbn -[new_row].
  - split; [eexists _, _; split; [reflexivity|auto]|].
    split; [|discriminate]. intros _.
    eexists _, _, _, _, _, _. split; [reflexivity|].
    left. rewrite Hins. cbn [fst]. eexists _, _, _.
    split; [exact Hl|]. split; [reflexivity|]. split; reflexivity.
  - split; [eexists _, _; split; [reflexivity|auto]|].
    split; [|discriminate]. intros _.
    eexists _, _, _, _, _, _. split; [reflexivity|].
    right. rewrite Hins. cbn [fst]. exists e.
    split; [exact Hl|]. split; reflexivity.
Qed.

(** X16. Recording and reading back. Take a request with one of the three
    stage kinds, a batch id and truthy JSON metadata, a store and a ledger
    that accept it, and suppose that the store then returns the row as it
    was inserted and the ledger the stage as it was added. Then RecordStage
    answers 201 and GetBatchStages on the resulting world answers 200 with
    that one stage verified and the status [FULLY_VERIFIED]. *)
Theorem record_then_read_back_verified :
  forall (w w1 w2 : W) (req : AddStageBody) (name : string) (k : Z) (m : json)
         (reply : DbReply) (receipt : Raw.receipt) (row : Row.t) (result : Raw.summary)
         (ts : Z),
    let id := formatted_batch_id req in
    let h := sha256_hex (JSON_render m) in
    stage_type req = VJson (JStr name) ->
    assoc name event_stages = Some (JNum k) ->
    metadata req = VJson m ->
    falsy (VJson m) = false ->
    falsy id = false ->
    stage_events_insert w (new_row req h) = (w1, reply) ->
    error reply = None ->
    contract_addStage w1 id (VJson (JNum k)) h = Return (w2, receipt) ->
    stage_events_select w2 id = {| data := [row]; error := None |} ->
    NewRow.event_type (new_row req h) = VJson (Row.event_type row) ->
    NewRow.event_data (new_row req h) = VJson (Row.event_data row) ->
    Row.event_hash row = JStr (NewRow.event_hash (new_row req h)) ->
    contract_getBatchSummary w2 (parseInt id) = Return result ->
    Raw.stages result = [Raw.Stage k ts h] ->
    (exists created,
        response_of (trace (snd (run (add_stage_event req) w))) = Some (201, created)) /\
    world (snd (run (add_stage_event req) w)) = w2 /\
    exists d,
      response_of (trace (snd (run (get_batch_stages id) w2))) =
        Some (200, BatchStages id id [d]
                     {| total_stages := 1; verified_stages := 1;
                        verification_status_of := FULLY_VERIFIED |}) /\
      Detail.data_integrity d = true /\
      Detail.on_chain_verified d = true /\
      Detail.verified d = true.
Proof.
  intros w w1 w2 req name k m reply receipt row result ts id h
         Hname Hk Hm Htruthy Hid Hins Herr Hadd Hsel Htype Hdata Hhash Hsum Hstages.
  assert (Hprop : get_property event_stages (stage_type req) = VJson (JNum k)).
  { rewrite Hname. unfold get_property. cbn [ToString json_ToString]. now rewrite Hk. }
  assert (Ht : loose_eq_undefined (get_property event_stages (stage_type req)) = false)
    by (now rewrite Hprop).
  assert (Hh : createBatchHash (metadata req) = Return h)
    by (rewrite Hm; apply createBatchHash_json).
  pose proof (add_stage_event_after_insert w w1 req h reply Ht Hid Hh Hins Herr) as R.
  cbv zeta in R. fold id in R. rewrite Hprop, Hadd in R.
  split; [rewrite R; eexists; reflexivity|]. split; [now rewrite R|].
  unfold new_row in Htype, Hdata, Hhash.
  cbn [NewRow.event_type NewRow.event_data NewRow.event_hash] in Htype, Hdata, Hhash.
  rewrite Hprop in Htype. injection Htype as Htype.
  rewrite Hm in Hdata. unfold js_or in Hdata. rewrite Htruthy in Hdata.
  injection Hdata as Hdata.
  assert (Hvalid : Row.event_hash row = JStr (sha256_hex (JSON_render (Row.event_data row))))
    by (now rewrite <- Hdata).
  assert (Herr2 : error (stage_events_select w2 id) = None) by (now rewrite Hsel).
  destruct (get_batch_stages_run w2 id Hid Herr2) as [ds [E R2]].
  unfold ledger_fetch in E, R2. rewrite Hsum in E, R2. cbn [fst snd] in E, R2.
  rewrite Hsel in E. cbn [data map_all] in E.
  rewrite client_stages, Hstages in E. cbn [map] in E.
  rewrite (processStage_valid _ _ Hvalid) in E. cbv zeta in E.
  cbn [find] in E.
  rewrite (same_kind_client_stage row (Raw.Stage k ts h) k (eq_sym Htype)) in E.
  cbn [Raw.stageType] in E. rewrite Z.eqb_refl in E.
  unfold safe_copy, client_stage in E.
  cbn [Ledger.metadataHash Ledger.stageType Ledger.timestamp Raw.metadataHash
       Raw.stageType Raw.timestamp Safe.metadataHash json_copy_bigint_safe read_property] in E.
  rewrite Hhash in E.
  assert (S : strict_eq (VJson (JStr h)) (VJson (JStr h)) = true)
    by (now apply strict_eq_string_json).
  rewrite S in E. injection E as <-.
  eexists. rewrite R2. cbn [snd trace app].
  split; [reflexivity|]. repeat split.
Qed.

End MoreRecordStage.

(** ** The batch id on the two sides *)

Lemma read_digits_acc_app (u : Decimal.uint) (rest : string) :
  forall a : positive,
    read_digits 10 (Some (Zpos a)) (NilEmpty.string_of_uint u ++ rest) =
    read_digits 10 (Some (Zpos (Pos.of_uint_acc u a))) rest.
Proof.
  induction u; intro a; cbn [NilEmpty.string_of_uint Pos.of_uint_acc append];
    [reflexivity|..]; read_digit;
    match goal with
    | |- read_digits 10 (Some ?z) _ = read_digits 10 (Some (Z.pos (Pos.of_uint_acc _ ?p))) _ =>
        replace z with (Z.pos p) by lia; apply IHu
    end.
Qed.

Lemma read_digits_zero_app (u : Decimal.uint) (rest : string) :
  read_digits 10 (Some 0) (NilEmpty.string_of_uint u ++ rest) =
  read_digits 10 (Some (Z.of_N (Pos.of_uint u))) rest.
Proof.
  induction u; cbn [NilEmpty.string_of_uint Pos.of_uint append]; [reflexivity|..];
    read_digit.
  1: exact IHu.
  all: exact (read_digits_acc_app u rest _).
Qed.

Lemma parseInt_string_uint_dash (u : Decimal.uint) (suffix : string) :
  u <> Decimal.Nil ->
  parseInt_string (NilEmpty.string_of_uint u ++ String "-" suffix) =
  Some (Z.of_N (Pos.of_uint u)).
Proof.
  intro H.
  assert (R : read_digits 10 None (NilEmpty.string_of_uint u ++ String "-" suffix) =
              Some (Z.of_N (Pos.of_uint u))).
  { transitivity (read_digits 10 (Some 0) (NilEmpty.string_of_uint u ++ String "-" suffix)).
    - destruct u; [contradiction|..]; reflexivity.
    - rewrite read_digits_zero_app. reflexivity. }
  rewrite <- R.
  destruct u as [|u|u|u|u|u|u|u|u|u|u]; [contradiction|..];
    (destruct u;
     (reflexivity ||
      (unfold parseInt_string; cbn [NilEmpty.string_of_uint trim_start append];
       eval_is_space; cbv beta iota zeta;
       destruct (read_digits _ _ _); [f_equal; lia|reflexivity]))).
Qed.

Lemma parseInt_formatted_id (n : Z) (suffix : string) :
  0 <= n ->
  parseInt (VJson (JStr (Z_to_string n ++ "-" ++ suffix))) = Some n.
Proof.
  intro Hn. unfold parseInt. cbn [ToString json_ToString].
  unfold Z_to_string. destruct n as [|p|p]; [reflexivity| |lia].
  cbn [Z.to_int NilZero.string_of_int].
  assert (N := Stdlib.Numbers.DecimalPos.Unsigned.to_uint_nonnil p).
  assert (E : NilZero.string_of_uint (Pos.to_uint p) =
              NilEmpty.string_of_uint (Pos.to_uint p))
    by (destruct (Pos.to_uint p); [contradiction|..]; reflexivity).
  rewrite E. cbn [append].
  rewrite (parseInt_string_uint_dash _ suffix N).
  now rewrite Stdlib.Numbers.DecimalPos.Unsigned.of_to.
Qed.

Lemma formatted_id_truthy (n : Z) (suffix : string) :
  falsy (VJson (JStr (Z_to_string n ++ "-" ++ suffix))) = false.
Proof.
  cbn [falsy]. destruct (Z_to_string n); reflexivity.
Qed.

(** X17. For a formatted batch id made of a non-negative integer, a dash and
    any suffix, GetBatchStages asks the store for the rows of the whole id
    but asks the ledger for the batch numbered by the integer in front, so
    two formatted ids with the same number in front are checked against the
    same ledger stages. *)
Theorem get_batch_stages_reads_ledger_at_numeric_prefix :
  forall (W : Type) (SV : Services W) (w : W) (n : Z) (suffix suffix' : string),
    0 <= n ->
    safe_integer n ->
    error (stage_events_select w (VJson (JStr (Z_to_string n ++ "-" ++ suffix)))) = None ->
    (exists rest,
        trace (snd (run (get_batch_stages (VJson (JStr (Z_to_string n ++ "-" ++ suffix)))) w)) =
          StoreSelect (VJson (JStr (Z_to_string n ++ "-" ++ suffix)))
            :: LedgerGetBatchSummary (Some n) :: rest) /\
    ledger_fetch w (VJson (JStr (Z_to_string n ++ "-" ++ suffix))) =
      ledger_fetch w (VJson (JStr (Z_to_string n ++ "-" ++ suffix'))).
Proof.
  intros W SV w n suffix suffix' Hn _ Herr. split.
  - destruct (get_batch_stages_run w _ (formatted_id_truthy n suffix) Herr) as [ds [_ R]].
    rewrite R. cbn [snd trace app]. rewrite (parseInt_formatted_id n suffix Hn).
    eexists. reflexivity.
  - unfold ledger_fetch.
    now rewrite (parseInt_formatted_id n suffix Hn), (parseInt_formatted_id n suffix' Hn).
Qed.

Lemma get_batch_stages_reads_ledger_at_numeric_prefix_witness :
  exists rest,
    trace (snd (run (get_batch_stages (VJson (JStr "42-TULSI"))) Sample.mirrored)) =
      StoreSelect (VJson (JStr "42-TULSI")) :: LedgerGetBatchSummary (Some 42) :: rest.
Proof.
  assert (S : safe_integer 42) by (unfold safe_integer; simpl; lia).
  assert (P : 0 <= 42) by lia.
  exact (proj1 (get_batch_stages_reads_ledger_at_numeric_prefix
                  InMemory.World InMemory.services Sample.mirrored 42 "TULSI" "NEEM"
                  P S eq_refl)).
Defined.

(** ** More on the analysis route *)

(** X18. How the analysis route ends. On a request without a parsed body,
    or whose body is [null], the destructuring of line 32 throws outside the
    [try]: the handler ends with that [TypeError] and has sent nothing. On
    every other request, whatever the download, the text extraction, the
    model and the parser do, the handler returns normally and answers
    exactly once, with 200, 400 or 500. In no case does it change the world. *)
Theorem analyse_pdf_answers_once :
  forall (W : Type) (AI : AiServices) (w : W) (body : value),
    world (snd (run (analyse_pdf body) w)) = w /\
    (body = VUndefined \/ body = VJson JNull ->
     (exists message, fst (run (analyse_pdf body) w) = Throw (TypeError message)) /\
     trace (snd (run (analyse_pdf body) w)) = []) /\
    (body <> VUndefined -> body <> VJson JNull ->
     fst (run (analyse_pdf body) w) = Return tt /\
     exists code b,
       responses (trace (snd (run (analyse_pdf body) w))) = [(code, b)] /\
       (code = 200 \/ code = 400 \/ code = 500)).
Proof.
  intros W AI w body.
  assert (T : forall pdfUrl : value,
             let r := (if falsy pdfUrl
                       then res_json 400 (ErrorBody "PDF URL is required.")
                       else
                         try_catch
                           (bind (lift (axios_get pdfUrl)) (fun buffer =>
                            bind (lift (pdf buffer)) (fun pdfText =>
                            bind (lift (generateContent_text systemPrompt pdfText)) (fun text =>
                            bind (lift (JSON_parse text)) (fun jsonResponse =>
                            bind (lift (destructure_rating jsonResponse)) (fun rating =>
                            res_json 200 (RatingBody rating)))))))
                           (fun error =>
                              bind (console_error "Error analyzing PDF:" error) (fun _ =>
                              res_json 500 (ErrorBody "Failed to analyze PDF."))))
                        (State w []) in
             world (snd r) = w /\ fst r = Return tt /\
             exists code b,
               responses (trace (snd r)) = [(code, b)] /\
               (code = 200 \/ code = 400 \/ code = 500)).
  { intro pdfUrl. cbv zeta. unfold try_catch, bind, lift.
    destruct (falsy pdfUrl);
      [cbn; repeat split; eexists _, _; split; [reflexivity|auto]|].
    destruct (axios_get pdfUrl) as [buffer|e];
      [|cbn; repeat split; eexists _, _; split; [reflexivity|auto]].
    destruct (pdf buffer) as [pdfText|e];
      [|cbn; repeat split; eexists _, _; split; [reflexivity|auto]].
    destruct (generateContent_text systemPrompt pdfText) as [text|e];
      [|cbn; repeat split; eexists _, _; split; [reflexivity|auto]].
    destruct (JSON_parse text) as [j|e];
      [|cbn; repeat split; eexists _, _; split; [reflexivity|auto]].
    destruct (destructure_rating j) as [rating|e];
      cbn; repeat split; eexists _, _; split; reflexivity || auto. }
  unfold run, analyse_pdf. unfold bind at 1. unfold lift at 1.
  destruct body as [| | |[|b|n|s|xs|fields]]; cbn [destructure_pdfUrl].
  1, 4: (split; [reflexivity|]; split;
         [intros _; split; [eexists; reflexivity|reflexivity]|];
         intros H1 H2; contradiction).
  all: match goal with
       | |- context [if falsy ?u then _ else _] =>
           destruct (T u) as [T1 [T2 T3]]; cbv zeta in T1, T2, T3;
           split; [exact T1|]; split;
           [intros [H|H]; discriminate H|intros _ _; split; [exact T2|exact T3]]
       end.
Qed.

Lemma analyse_pdf_answers_once_witness :
  fst (run (analyse_pdf (AI := InMemory.ai) VUndefined) InMemory.empty) =
    Throw (TypeError
      "Cannot destructure property 'pdfUrl' of 'req.body' as it is undefined.") /\
  trace (snd (run (analyse_pdf (AI := InMemory.ai) VUndefined) InMemory.empty)) = [] /\
  fst (run (analyse_pdf (AI := InMemory.ai) Sample2.pdf_request) InMemory.empty) = Return tt.
Proof.
  destruct (analyse_pdf_answers_once InMemory.World InMemory.ai InMemory.empty VUndefined)
    as [_ [T _]].
  destruct (T (or_introl eq_refl)) as [_ Ht].
  split; [reflexivity|]. split; [exact Ht|].
  destruct (analyse_pdf_answers_once InMemory.World InMemory.ai InMemory.empty
              Sample2.pdf_request) as [_ [_ U]].
  refine (proj1 (U _ _)); discriminate.
Defined.

(** X19. The rating is passed on unchecked. For a body with a truthy
    [pdfUrl], once the model's reply has been parsed: a reply that is [null]
    ends in the 500; an object answers 200 with whatever value its [rating]
    property holds, not only one of the five categories; and any other
    reply, or an object without [rating], answers 200 with [rating]
    undefined. *)
Theorem analyse_pdf_rating_unchecked :
  forall (W : Type) (AI : AiServices) (w : W) (fields : list (string * json))
         (pdfUrl : json) (buffer pdfText text : string) (jsonResponse : json),
    assoc "pdfUrl" fields = Some pdfUrl ->
    falsy (VJson pdfUrl) = false ->
    axios_get (VJson pdfUrl) = Return buffer ->
    pdf buffer = Return pdfText ->
    generateContent_text systemPrompt pdfText = Return text ->
    JSON_parse text = Return jsonResponse ->
    (jsonResponse = JNull ->
     response_of (trace (snd (run (analyse_pdf (VJson (JObj fields))) w))) =
       Some (500, ErrorBody "Failed to analyze PDF.")) /\
    (forall ps r,
        jsonResponse = JObj ps -> assoc "rating" ps = Some r ->
        response_of (trace (snd (run (analyse_pdf (VJson (JObj fields))) w))) =
          Some (200, RatingBody (VJson r))) /\
    (jsonResponse <> JNull ->
     (forall ps, jsonResponse = JObj ps -> assoc "rating" ps = None) ->
     response_of (trace (snd (run (analyse_pdf (VJson (JObj fields))) w))) =
       Some (200, RatingBody VUndefined)).
Proof.
  intros W AI w fields pdfUrl buffer pdfText text j Hf Hu Hb Hp Hg Hj.
  unfold run, analyse_pdf, try_catch, bind, lift.
  rewrite read_pdfUrl, Hf, Hu, Hb, Hp, Hg, Hj.
  split; [intros ->; reflexivity|]. split.
  - intros ps r -> Hr. rewrite destructure_rating_object, Hr. reflexivity.
  - intros Hn Hps. destruct j as [|b|n|s|xs|ps]; try reflexivity; [contradiction|].
    rewrite destructure_rating_object, (Hps ps eq_refl). reflexivity.
Qed.

Lemma analyse_pdf_rating_unchecked_witness :
  response_of
    (trace (snd (run (analyse_pdf (AI := Sample2.ai_no_rating) Sample2.pdf_request)
                     InMemory.empty))) =
  Some (200, RatingBody VUndefined).
Proof.
  refine (proj2 (proj2 (analyse_pdf_rating_unchecked
            InMemory.World Sample2.ai_no_rating InMemory.empty
            [("pdfUrl", JStr "https://files.example/report.pdf")]
            (JStr "https://files.example/report.pdf")
            "%PDF-1.7" "Moisture 12%" "{}" (JObj [("quality", JStr "good")])
            eq_refl eq_refl eq_refl eq_refl eq_refl eq_refl)) _ _).
  - discriminate.
  - intros ps H. injection H as <-. reflexivity.
Defined.

(** ** Creating a batch and uploading a report *)

Lemma append_nil_r (s : string) : s ++ "" = s.
Proof. induction s; simpl; congruence. Qed.

Lemma append_assoc (a b c : string) : (a ++ b) ++ c = a ++ (b ++ c).
Proof. induction a; simpl; congruence. Qed.

Lemma no_dot_snoc (s : string) (c : ascii) :
  Reports.no_dot s -> c <> "."%char -> Reports.no_dot (s ++ str1 c).
Proof.
  unfold Reports.no_dot. induction s as [|x s IH]; simpl; intros H Hc.
  - intros [E|[]]. congruence.
  - intros [E|Hin]; [apply H; now left|].
    apply IH; [intro; apply H; now right|exact Hc|exact Hin].
Qed.

Lemma split_from_nonempty (current s : string) : Reports.split_from "." current s <> [].
Proof.
  revert current. induction s as [|c s IH]; intro current; simpl; [discriminate|].
  destruct (Ascii.eqb c "."); [discriminate|apply IH].
Qed.

Lemma last_cons_nonempty {A : Type} (x : A) (l : list A) (d : A) :
  l <> [] -> last (x :: l) d = last l d.
Proof. destruct l; [contradiction|reflexivity]. Qed.

Lemma pop_split_from (s : string) :
  forall current,
    Reports.no_dot current ->
    Reports.no_dot (Reports.pop (Reports.split_from "." current s)) /\
    (current ++ s = Reports.pop (Reports.split_from "." current s) \/
     exists stem,
       current ++ s = stem ++ "." ++ Reports.pop (Reports.split_from "." current s)).
Proof.
  induction s as [|c s IH]; intros current Hc.
  - cbn. split; [exact Hc|left; apply append_nil_r].
  - cbn [Reports.split_from]. destruct (Ascii.eqb c ".") eqn:E.
    + apply Ascii.eqb_eq in E. subst c.
      unfold Reports.pop. rewrite last_cons_nonempty by apply split_from_nonempty.
      destruct (IH "" (fun H => H)) as [Hd [Heq|[stem Heq]]]; unfold Reports.pop in *;
        set (ext := last (Reports.split_from "." "" s) "") in *; clearbody ext.
      * split; [exact Hd|]. right. exists current. cbn in Heq. now subst ext.
      * split; [exact Hd|]. right. exists (current ++ "." ++ stem).
        cbn in Heq. subst s. rewrite !append_assoc. reflexivity.
    + apply Ascii.eqb_neq in E.
      destruct (IH (current ++ str1 c) (no_dot_snoc _ _ Hc E)) as [Hd Heq].
      split; [exact Hd|].
      replace (current ++ String c s) with ((current ++ str1 c) ++ s)
        by (rewrite append_assoc; reflexivity).
      exact Heq.
Qed.


(** X21. The path of a stored report is [reports/], the upload time, a dash,
    the random fragment, a dot and an extension. The extension holds no dot
    and is the end of the original file name: the whole name when it has no
    dot, otherwise what follows its last dot, so nothing else of the original
    name reaches the path. *)
Theorem report_path_shape :
  forall (originalname : string) (now : Z) (random : string),
    exists ext,
      Reports.report_path originalname now random =
        "reports/" ++ Z_to_string now ++ "-" ++ random ++ "." ++ ext /\
      Reports.no_dot ext /\
      (originalname = ext \/ exists stem, originalname = stem ++ "." ++ ext).
Proof.
  intros name now random.
  exists (Reports.pop (Reports.split "." name)). split; [reflexivity|].
  exact (pop_split_from name "" (fun H => H)).
Qed.

Section ReportRoutes.
Context {W : Type} {SV : Reports.Services W}.

(** X20. The create route hands [batchName] to the contract as it is,
    whatever it is. When the contract call succeeds the answer is a 200 whose
    [batchId] is the object that [createBatch] returned, itself holding the
    id as a decimal string, or [undefined] when the receipt has no such log
    argument; when it fails the answer is a 500 with the message of the
    error, which is also written to the console. *)
Theorem create_batch_answers :
  forall (w : W) (batchName : value),
    (forall w' id,
        Reports.contract_createBatch w batchName = Return (w', id) ->
        Reports.run (Reports.create batchName) w =
          (Return tt,
           (w', [Reports.ContractCreateBatch batchName;
                 Reports.Answer 200
                   (Reports.BatchCreated
                      (Reports.Created match id with
                                       | Some n => VJson (JStr (Z_to_string n))
                                       | None => VUndefined
                                       end)
                      "Batch created successfully")]))) /\
    (forall e,
        Reports.contract_createBatch w batchName = Throw e ->
        Reports.run (Reports.create batchName) w =
          (Return tt,
           (w, [Reports.ContractCreateBatch batchName;
                Reports.LogError "" e;
                Reports.Answer 500 (Reports.ErrorReply (exn_message e))]))).
Proof.
  intros w batchName.
  split; intros; unfold Reports.run, Reports.create, Reports.try_catch, Reports.createBatch,
    Reports.bind, Reports.call_createBatch, Reports.bind, Reports.emit, Reports.ret;
    cbn; rewrite H; reflexivity.
Qed.

(** X22. The four ways an upload request ends. Without a file: 400, and the
    storage is not called. When the storage resolves with an error: the
    error is written to the console, the answer is a 500 with a fixed
    message that does not carry the storage's own, and no public URL is
    asked for. When the upload succeeds: 201 with the public URL of the very
    path that was uploaded, the data and content type sent being those of
    the file. When the storage call throws: 500 with the message of the
    error, or a fixed text when that message is empty. *)
Theorem upload_report_answers :
  forall (w : W) (f : Reports.file) (now : Z) (random : string),
    let filePath := Reports.report_path (Reports.originalname f) now random in
    let upload := Reports.StorageUpload filePath (Reports.buffer f) (Reports.mimetype f) in
    Reports.run (Reports.upload_report None now random) w =
      (Return tt, (w, [Reports.Answer 400 (Reports.ErrorReply "No file uploaded")])) /\
    (forall w' e,
        Reports.storage_upload w filePath (Reports.buffer f) (Reports.mimetype f) =
          Return (w', Some e) ->
        Reports.run (Reports.upload_report (Some f) now random) w =
          (Return tt,
           (w', [upload;
                 Reports.LogError "Error uploading file:" e;
                 Reports.Answer 500 (Reports.ErrorReply "Failed to upload file")]))) /\
    (forall w',
        Reports.storage_upload w filePath (Reports.buffer f) (Reports.mimetype f) =
          Return (w', None) ->
        Reports.run (Reports.upload_report (Some f) now random) w =
          (Return tt,
           (w', [upload;
                 Reports.StorageGetPublicUrl filePath;
                 Reports.Answer 201
                   (Reports.FileUploaded "File uploaded successfully"
                      (Reports.storage_getPublicUrl filePath))]))) /\
    (forall e,
        Reports.storage_upload w filePath (Reports.buffer f) (Reports.mimetype f) =
          Throw e ->
        Reports.run (Reports.upload_report (Some f) now random) w =
          (Return tt,
           (w, [upload;
                Reports.LogError "Error in file upload:" e;
                Reports.Answer 500
                  (Reports.ErrorReply
                     (Reports.message_or e "An error occurred during file upload"))]))).
Proof.
  intros w f now random filePath upload.
  split; [reflexivity|].
  repeat split; intros;
    unfold Reports.run, Reports.upload_report, Reports.try_catch, Reports.bind,
      Reports.call_upload, Reports.call_getPublicUrl, Reports.bind, Reports.emit,
      Reports.ret, Reports.log_error, Reports.answer;
    fold filePath; cbn -[filePath]; rewrite H; reflexivity.
Qed.

End ReportRoutes.

Lemma create_batch_answers_witness :
  Reports.run (Reports.create VUndefined) Reports.InMemory.empty =
    (Return tt,
     ({| Reports.InMemory.objects := []; Reports.InMemory.batches := 1;
         Reports.InMemory.failure := None |},
      [Reports.ContractCreateBatch VUndefined;
       Reports.Answer 200
         (Reports.BatchCreated (Reports.Created (VJson (JStr "1")))
            "Batch created successfully")])) /\
  Reports.run (Reports.create (VJson (JStr "Tulsi"))) Reports.InMemory.down =
    (Return tt,
     (Reports.InMemory.down,
      [Reports.ContractCreateBatch (VJson (JStr "Tulsi"));
       Reports.LogError "" (Error "fetch failed");
       Reports.Answer 500 (Reports.ErrorReply "fetch failed")])).
Proof.
  split.
  - exact (proj1 (create_batch_answers (SV := Reports.InMemory.services)
                    Reports.InMemory.empty VUndefined) _ (Some 1) eq_refl).
  - exact (proj2 (create_batch_answers (SV := Reports.InMemory.services)
                    Reports.InMemory.down (VJson (JStr "Tulsi")))
                 (Error "fetch failed") eq_refl).
Defined.

Lemma upload_report_answers_witness :
  Reports.run (Reports.upload_report (Some Sample2.report) 1700000000000 "k3j9x2")
              Reports.InMemory.empty =
    (Return tt,
     ({| Reports.InMemory.objects := [("reports/1700000000000-k3j9x2.pdf", "%PDF-1.7")];
         Reports.InMemory.batches := 0; Reports.InMemory.failure := None |},
      [Reports.StorageUpload "reports/1700000000000-k3j9x2.pdf" "%PDF-1.7" "application/pdf";
       Reports.StorageGetPublicUrl "reports/1700000000000-k3j9x2.pdf";
       Reports.Answer 201
         (Reports.FileUploaded "File uploaded successfully"
            "https://store.example/object/public/events/reports/1700000000000-k3j9x2.pdf")])) /\
  Reports.run (Reports.upload_report (Some Sample2.report) 1700000000000 "k3j9x2")
              Reports.InMemory.down =
    (Return tt,
     (Reports.InMemory.down,
      [Reports.StorageUpload "reports/1700000000000-k3j9x2.pdf" "%PDF-1.7" "application/pdf";
       Reports.LogError "Error uploading file:" (Error "fetch failed");
       Reports.Answer 500 (Reports.ErrorReply "Failed to upload file")])).
Proof.
  split.
  - exact (proj1 (proj2 (proj2 (upload_report_answers (SV := Reports.InMemory.services)
                    Reports.InMemory.empty Sample2.report 1700000000000 "k3j9x2")))
                 _ eq_refl).
  - exact (proj1 (proj2 (upload_report_answers (SV := Reports.InMemory.services)
                    Reports.InMemory.down Sample2.report 1700000000000 "k3j9x2"))
                 _ (Error "fetch failed") eq_refl).
Defined.


(** ** The further properties on the in-memory services *)

Lemma add_stage_event_batch_id_required_witness :
  run (add_stage_event Sample2.no_batch_id) InMemory.empty =
  (Return tt,
   State InMemory.empty [Respond 400 (ErrorBody "batch_id and stage_type are required")]).
Proof.
  exact (proj1 (proj2 (add_stage_event_batch_id_required
                         (SV := InMemory.services) InMemory.empty Sample2.no_batch_id eq_refl))
               eq_refl).
Defined.

Lemma add_stage_event_store_error_witness :
  run (add_stage_event (Sample.collection 12)) (Sample2.store_down InMemory.empty) =
  (Return tt,
   State (Sample2.store_down InMemory.empty)
     [StoreInsert (new_row (Sample.collection 12) Sample.hash12);
      ConsoleError "Error recording stage event:"
        (Error "relation stage_events does not exist");
      Respond 500 (ErrorBody "relation stage_events does not exist")]).
Proof.
  exact (add_stage_event_store_error
           (SV := InMemory.services) (Sample2.store_down InMemory.empty)
           (Sample2.store_down InMemory.empty) (Sample.collection 12) Sample.hash12
           {| data := []; error := Some (Error "relation stage_events does not exist") |}
           (Error "relation stage_events does not exist")
           eq_refl eq_refl eq_refl eq_refl eq_refl).
Defined.

Lemma add_stage_event_mirrors_row_witness :
  run (add_stage_event (Sample.collection 12)) InMemory.empty =
  (Return tt,
   State Sample.mirrored
     [StoreInsert (new_row (Sample.collection 12) Sample.hash12);
      Respond 201 (StageRecorded "Stage event recorded successfully"
                     (Some Sample2.first_row) Sample.hash12);
      LedgerAddStage (VJson (JStr "42")) (VJson (JNum 0)) Sample.hash12;
      ConsoleLog (Ledger.Tx (VJson (JStr "0x01")) (VJson (JStr "0")))]).
Proof.
  exact (add_stage_event_mirrors_row
           (SV := InMemory.services) InMemory.empty
           (fst (InMemory.insert InMemory.empty (new_row (Sample.collection 12) Sample.hash12)))
           Sample.mirrored (Sample.collection 12) Sample.hash12
           (snd (InMemory.insert InMemory.empty (new_row (Sample.collection 12) Sample.hash12)))
           (Raw.Receipt "0x01" (Some 0))
           eq_refl eq_refl eq_refl eq_refl eq_refl eq_refl).
Defined.

Lemma get_batch_stages_details_follow_rows_witness :
  exists ds,
    response_of (trace (snd (run (get_batch_stages (VJson (JStr "42")))
                                 Sample.mirrored_twice))) =
      Some (200, BatchStages (VJson (JStr "42")) (VJson (JStr "42")) ds (summary_of ds)) /\
    map Detail.metadata ds = [Sample.moisture 12; Sample.moisture 15].
Proof.
  destruct (get_batch_stages_details_follow_rows
              (SV := InMemory.services) Sample.mirrored_twice (VJson (JStr "42"))
              eq_refl eq_refl) as [ds [H1 [_ [H2 _]]]].
  exists ds. split; [exact H1|exact H2].
Defined.

Lemma get_batch_stages_store_error_witness :
  run (get_batch_stages (VJson (JStr "42"))) (Sample2.store_down Sample.mirrored) =
  (Return tt,
   State (Sample2.store_down Sample.mirrored)
     [StoreSelect (VJson (JStr "42"));
      ConsoleError "Error fetching batch stages:"
        (Error "relation stage_events does not exist");
      Respond 500 (ErrorDetailsBody "relation stage_events does not exist"
                     "Failed to fetch batch stages")]).
Proof.
  exact (get_batch_stages_store_error
           (SV := InMemory.services) (Sample2.store_down Sample.mirrored)
           (VJson (JStr "42")) (Error "relation stage_events does not exist")
           eq_refl eq_refl).
Defined.

Lemma record_then_read_back_verified_witness :
  world (snd (run (add_stage_event (Sample.collection 12)) InMemory.empty)) =
    Sample.mirrored /\
  exists d,
    response_of (trace (snd (run (get_batch_stages (VJson (JStr "42"))) Sample.mirrored))) =
      Some (200, BatchStages (VJson (JStr "42")) (VJson (JStr "42")) [d]
                   {| total_stages := 1; verified_stages := 1;
                      verification_status_of := FULLY_VERIFIED |}) /\
    Detail.verified d = true.
Proof.
  destruct (record_then_read_back_verified
              (SV := InMemory.services) InMemory.empty
              (fst (InMemory.insert InMemory.empty
                      (new_row (Sample.collection 12) Sample.hash12)))
              Sample.mirrored (Sample.collection 12) "CollectionEvent" 0
              (Sample.moisture 12)
              (snd (InMemory.insert InMemory.empty
                      (new_row (Sample.collection 12) Sample.hash12)))
              (Raw.Receipt "0x01" (Some 0)) Sample2.first_row
              (Raw.Summary "herb" 1 [Raw.Stage 0 1701 Sample.hash12]) 1701
              eq_refl eq_refl eq_refl eq_refl eq_refl eq_refl eq_refl eq_refl
              eq_refl eq_refl eq_refl eq_refl eq_refl eq_refl)
    as [_ [Hw [d [H1 [_ [_ H4]]]]]].
  split; [exact Hw|]. exists d. split; [exact H1|exact H4].
Defined.


(** X11. The on-chain data shown in a detail never holds a big integer: for
    ledger stages that came through [getBatchSummary] it is the copy of one
    of the contract's stages, its stage type and timestamp as decimal
    strings and its metadata hash as the string the contract returned. *)
Theorem on_chain_data_holds_strings :
  forall (result : Raw.summary) (row : Row.t) (d : Detail.t) (copy : Safe.stage),
    processStage (Ledger.stages (summary_of_result result)) row = Return d ->
    Detail.on_chain_data d = Some copy ->
    exists stage,
      In stage (Raw.stages result) /\
      copy = Safe.Stage (Some (JStr (Z_to_string (Raw.stageType stage))))
                        (Some (JStr (Z_to_string (Raw.timestamp stage))))
                        (Some (JStr (Raw.metadataHash stage))).
Proof.
  intros result row d copy Hd Hc. rewrite client_stages in Hd.
  destruct (strict_eq (VJson (JStr (sha256_hex (JSON_render (Row.event_data row)))))
                      (VJson (Row.event_hash row))) eqn:E.
  - apply strict_eq_string_json in E.
    rewrite (processStage_valid _ _ E) in Hd. cbv zeta in Hd. injection Hd as <-.
    cbn [Detail.on_chain_data] in Hc.
    destruct (find (same_kind row) (map client_stage (Raw.stages result)))
      as [found|] eqn:F; [|discriminate].
    injection Hc as <-. destruct (find_some _ _ F) as [Hin _].
    apply in_map_iff in Hin. destruct Hin as [stage [<- Hin]].
    exists stage. split; [exact Hin|reflexivity].
  - assert (Hne : Row.event_hash row <>
                  JStr (sha256_hex (JSON_render (Row.event_data row)))).
    { intro H. apply strict_eq_string_json in H. rewrite H in E. discriminate. }
    rewrite (processStage_invalid _ _ Hne) in Hd. injection Hd as <-. discriminate.
Qed.

Lemma on_chain_data_holds_strings_witness :
  exists stage,
    In stage [Raw.Stage 0 1701 Sample.hash12] /\
    Safe.Stage (Some (JStr "0")) (Some (JStr "1701")) (Some (JStr Sample.hash12)) =
    Safe.Stage (Some (JStr (Z_to_string (Raw.stageType stage))))
               (Some (JStr (Z_to_string (Raw.timestamp stage))))
               (Some (JStr (Raw.metadataHash stage))).
Proof.
  refine (on_chain_data_holds_strings
            (Raw.Summary "herb" 1 [Raw.Stage 0 1701 Sample.hash12]) Sample2.first_row
            (Detail.Make (JNum 0) (Sample.moisture 12) (JNum 1700) true true true
               (Some (Safe.Stage (Some (JStr "0")) (Some (JStr "1701"))
                                 (Some (JStr Sample.hash12)))))
            _ _ _).
  - vm_compute. reflexivity.
  - reflexivity.
Defined.

